(** * NetMonitor: the rate sampler and the widget geometry controller

    A shallow embedding of [NetMonitor/network_monitor.py].

    - [Sampler] embeds class [NetworkMonitor]: the conversion of the
      cumulative OS byte counters into Mbps figures and their formatting.
      Python floats are IEEE binary64, modelled by Rocq's primitive floats;
      Python integers are unbounded, modelled by [Z].
    - [Qt] is the small part of the toolkit the controller relies on:
      points, sizes, rectangles and the geometry of a top-level window.
    - [Json] is the persistence file as [json.load] returns it.
    - [Controller] embeds class [UnifiedNetworkWidget] as explicit state
      passing over a record of its attributes, one function per method.
      Calls that only restyle (style sheets, fonts, cursors, repaint) touch
      no modelled attribute and are left out.

    Screen coordinates are taken in [Z]; the 32-bit range of Qt's [int] is
    never approached by the arithmetic on screen positions. *)

From Stdlib Require Import ZArith String Ascii List Bool Lia.
From Stdlib Require Import Floats.
From Stdlib Require Import DecimalString.
Import ListNotations.

Open Scope Z_scope.

(* ================================================================= *)
(** ** Python runtime: int to float, float formatting *)

Module Py.

(** [float(z)] as performed by [int / float]: the nearest binary64 value,
    ties to even; [None] is [OverflowError] (int too large). *)
Definition int_to_float (z : Z) : option float :=
  let f := SF2Prim (binary_normalize prec emax z 0 false) in
  if is_infinity f then None else Some f.

(** [a / b] with [a : int] and [b : float]; [None] is an exception
    ([OverflowError] from the conversion, [ZeroDivisionError]). *)
Definition truediv_int_float (a : Z) (b : float) : option float :=
  match int_to_float a with
  | None => None
  | Some fa => if is_zero b then None else Some (fa / b)%float
  end.

(** Nearest integer to [n / 2^k], ties to even. *)
Definition round_half_even_shift (n : Z) (k : Z) : Z :=
  let d := 2 ^ k in
  let q := n / d in
  let r := n mod d in
  match (2 * r ?= d) with
  | Lt => q
  | Gt => q + 1
  | Eq => if Z.even q then q else q + 1
  end.

Definition zeros (n : nat) : string := string_of_list_ascii (repeat "0"%char n).

Definition substring_from (n : nat) (s : string) : string :=
  substring n (String.length s - n) s.

(** The digits of [n >= 0] scaled by [10^-d], with [d] fractional digits. *)
Definition fixed_digits (d : nat) (n : Z) : string :=
  let s := NilZero.string_of_uint (N.to_uint (Z.to_N n)) in
  let s := (zeros (S d - String.length s) ++ s)%string in
  let k := (String.length s - d)%nat in
  match d with
  | O => s
  | _ => (substring 0 k s ++ "." ++ substring_from k s)%string
  end.

Definition sign_prefix (s : bool) : string := if s then "-"%string else ""%string.

(** [format(x, ".df")]: the exact binary value rounded to [d] decimals
    (ties to even), as CPython's correctly rounded formatting does. *)
Definition format_f (d : nat) (x : float) : string :=
  match Prim2SF x with
  | S754_nan => "nan"%string
  | S754_infinity s => (sign_prefix s ++ "inf")%string
  | S754_zero s => (sign_prefix s ++ fixed_digits d 0)%string
  | S754_finite s m e =>
      let n := Z.pos m * 10 ^ Z.of_nat d in
      let r := if 0 <=? e then n * 2 ^ e else round_half_even_shift n (- e) in
      (sign_prefix s ++ fixed_digits d r)%string
  end.

(** [a / b] with [a], [b] ints below 2^53 in magnitude (exactly
    representable, so that the correctly rounded quotient is the
    quotient of the two floats); [None] is [ZeroDivisionError]. *)
Definition truediv_int_int (a b : Z) : option float :=
  if b =? 0 then None
  else
    Some (SF2Prim (binary_normalize prec emax a 0 false)
          / SF2Prim (binary_normalize prec emax b 0 false))%float.

(** [int(x)]: truncation towards zero; [None] is the exception raised
    on an infinity or a NaN. *)
Definition int_of_float (x : float) : option Z :=
  match Prim2SF x with
  | S754_zero _ => Some 0
  | S754_finite s m e =>
      let magnitude := if 0 <=? e then Z.pos m * 2 ^ e else Z.pos m / 2 ^ (- e) in
      Some (if s then - magnitude else magnitude)
  | _ => None
  end.

(** [int(a / b)]. *)
Definition int_truediv (a b : Z) : option Z :=
  match truediv_int_int a b with
  | Some q => int_of_float q
  | None => None
  end.

End Py.

(* ================================================================= *)
(** ** The rate sampler: class [NetworkMonitor] *)

Module Sampler.

(** The attributes of a [NetworkMonitor] instance. *)
Record NetworkMonitor := mkMonitor {
  last_bytes_sent : Z;
  last_bytes_recv : Z;
  last_time : float
}.

(** What [psutil.net_io_counters()] returns (the two fields read). *)
Record Counters := mkCounters {
  bytes_sent : Z;
  bytes_recv : Z
}.

(** The operating system as seen by one call: the value of [time.time()]
    and the outcome of [psutil.net_io_counters()], [None] when it raises. *)
Record OS := mkOS {
  os_time : float;
  os_counters : option Counters
}.

(** [NetworkMonitor.__init__], with [_initialize_network_stats] inlined. *)
Definition new_monitor (os : OS) : NetworkMonitor :=
  match os_counters os with
  | Some stats => mkMonitor (bytes_sent stats) (bytes_recv stats) (os_time os)
  | None => mkMonitor 0 0 (os_time os)
  end.

(** The conversion to Mbps applied to one counter delta. *)
Definition to_mbps (bytes_diff : Z) (time_diff : float) : option float :=
  match Py.truediv_int_float bytes_diff time_diff with
  | Some per_second => Some (per_second * 8 / 1048576)%float
  | None => None
  end.

(** [NetworkMonitor.get_network_speed]: the returned pair and the
    instance after the call. *)
Definition get_network_speed (os : OS) (m : NetworkMonitor)
  : (float * float) * NetworkMonitor :=
  let current_time := os_time os in
  match os_counters os with
  | None => ((0, 0)%float, m)
  | Some stats =>
      let time_diff := (current_time - last_time m)%float in
      if (time_diff <=? 0)%float then ((0, 0)%float, m)
      else
        let bytes_sent_diff := bytes_sent stats - last_bytes_sent m in
        let bytes_recv_diff := bytes_recv stats - last_bytes_recv m in
        match to_mbps bytes_sent_diff time_diff with
        | None => ((0, 0)%float, m)
        | Some upload_speed =>
            match to_mbps bytes_recv_diff time_diff with
            | None => ((0, 0)%float, m)
            | Some download_speed =>
                ((upload_speed, download_speed),
                 mkMonitor (bytes_sent stats) (bytes_recv stats) current_time)
            end
        end
  end.

(** [NetworkMonitor.format_speed]. *)
Definition format_speed (speed_mbps : float) : string :=
  if (1 <=? speed_mbps)%float then
    (Py.format_f 2 speed_mbps ++ " Mbps")%string
  else
    let speed_kbps := (speed_mbps * 1024)%float in
    (Py.format_f 1 speed_kbps ++ " Kbps")%string.

(** The OS when the sampler of the sessions below is created. *)
Definition os_at_launch : OS := mkOS 100.5 (Some (mkCounters 1048576 0)).

End Sampler.

(* ================================================================= *)
(** ** The toolkit: points, sizes, rectangles, window geometry *)

Module Qt.

Record QPoint := mkPoint { px : Z; py : Z }.
Record QSize := mkSize { width : Z; height : Z }.
Record QRect := mkRect { rx : Z; ry : Z; rwidth : Z; rheight : Z }.

Definition point_sub (a b : QPoint) : QPoint :=
  mkPoint (px a - px b) (py a - py b).

Definition manhattanLength (p : QPoint) : Z := Z.abs (px p) + Z.abs (py p).

Definition topLeft (r : QRect) : QPoint := mkPoint (rx r) (ry r).

Definition rect_size (r : QRect) : QSize := mkSize (rwidth r) (rheight r).

(** [QRect.contains(p)] for a rectangle of non-negative size. *)
Definition contains (r : QRect) (p : QPoint) : bool :=
  (rx r <=? px p) && (px p <=? rx r + rwidth r - 1) &&
  (ry r <=? py p) && (py p <=? ry r + rheight r - 1).

Inductive CursorShape :=
| SizeVerCursor | SizeHorCursor | SizeBDiagCursor | SizeFDiagCursor
| PointingHandCursor | SizeAllCursor.

Definition cursor_eqb (a b : CursorShape) : bool :=
  match a, b with
  | SizeVerCursor, SizeVerCursor | SizeHorCursor, SizeHorCursor
  | SizeBDiagCursor, SizeBDiagCursor | SizeFDiagCursor, SizeFDiagCursor
  | PointingHandCursor, PointingHandCursor | SizeAllCursor, SizeAllCursor => true
  | _, _ => false
  end.

Inductive MouseButton := LeftButton | RightButton | MiddleButton.

(** [event.buttons()]: the set of buttons held down. *)
Record MouseButtons := mkButtons {
  left_down : bool;
  right_down : bool;
  middle_down : bool
}.

(** [buttons == Qt.LeftButton]: the left button and no other. *)
Definition only_left (bs : MouseButtons) : bool :=
  left_down bs && negb (right_down bs) && negb (middle_down bs).

(** A frameless top-level window: its geometry and its size constraints. *)
Record Window := mkWindow {
  geometry : QRect;
  minimumSize : QSize;
  maximumSize : QSize
}.

Definition QWIDGETSIZE_MAX : Z := 16777215.

(** Qt adjusts a requested size to the minimum and maximum size. *)
Definition bound_width (win : Window) (w : Z) : Z :=
  Z.max (Z.min w (width (maximumSize win))) (width (minimumSize win)).
Definition bound_height (win : Window) (h : Z) : Z :=
  Z.max (Z.min h (height (maximumSize win))) (height (minimumSize win)).

Definition setGeometry (x y w h : Z) (win : Window) : Window :=
  mkWindow (mkRect x y (bound_width win w) (bound_height win h))
           (minimumSize win) (maximumSize win).

Definition move (x y : Z) (win : Window) : Window :=
  mkWindow (mkRect x y (rwidth (geometry win)) (rheight (geometry win)))
           (minimumSize win) (maximumSize win).

(** [setFixedSize(w, h)]: minimum and maximum size become the given
    size (kept within [0, QWIDGETSIZE_MAX]) and the window takes it. *)
Definition setFixedSize (w h : Z) (win : Window) : Window :=
  let w' := Z.max 0 (Z.min w QWIDGETSIZE_MAX) in
  let h' := Z.max 0 (Z.min h QWIDGETSIZE_MAX) in
  mkWindow (mkRect (rx (geometry win)) (ry (geometry win)) w' h')
           (mkSize w' h') (mkSize w' h').

End Qt.

(* ================================================================= *)
(** ** The persistence file as Python reads it *)

Module Json.

(** A JSON value after [json.load]; numbers are the integers that
    [save_position] writes. [JCompound] is an array or an object. *)
Inductive jvalue :=
| JNull
| JBool (b : bool)
| JInt (z : Z)
| JString (s : string)
| JCompound (nonempty : bool).

Definition dict := list (string * jvalue).

(** [d.get(key)]; of two entries with one key the later wins. *)
Fixpoint dict_get (d : dict) (key : string) : option jvalue :=
  match d with
  | [] => None
  | (k, v) :: d' =>
      match dict_get d' key with
      | Some v' => Some v'
      | None => if String.eqb k key then Some v else None
      end
  end.

Definition get_default (d : dict) (key : string) (default : jvalue) : jvalue :=
  match dict_get d key with
  | Some v => v
  | None => default
  end.

(** Python truthiness. *)
Definition truthy (v : jvalue) : bool :=
  match v with
  | JNull => false
  | JBool b => b
  | JInt z => negb (z =? 0)
  | JString s => negb (String.eqb s "")
  | JCompound nonempty => nonempty
  end.

(** The value as an operand of [<] and [>] against an int;
    [None] is [TypeError]. *)
Definition as_int (v : jvalue) : option Z :=
  match v with
  | JBool b => Some (Z.b2z b)
  | JInt z => Some z
  | _ => None
  end.

(** [max(lo, min(v, hi))] with [lo], [hi] ints. *)
Definition clamp (lo : Z) (v : jvalue) (hi : Z) : option Z :=
  match as_int v with
  | Some z => Some (Z.max lo (Z.min z hi))
  | None => None
  end.

(** The file on disk: absent, not loadable as a JSON object, or an object. *)
Inductive FileContent :=
| NoFile
| Unreadable
| Object (position_data : dict).

End Json.

(* ================================================================= *)
(** ** The geometry controller: class [UnifiedNetworkWidget] *)

Module Controller.

Import Qt Json Sampler.

(** Attributes assigned once in [__init__] and never written again. *)
Definition widget_width : Z := 12.
Definition widget_height : Z := 40.
Definition min_panel_width : Z := 220.
Definition min_panel_height : Z := 120.
Definition max_panel_width : Z := 500.
Definition max_panel_height : Z := 400.
Definition drag_threshold : Z := 5.
Definition resize_threshold : Z := 8.

Record Widget := mkWidget {
  (* the primary screen, read once in [__init__] *)
  screen_width : Z;
  screen_height : Z;
  (* the expanded size *)
  panel_width : Z;
  panel_height : Z;
  (* the state variables *)
  is_expanded : bool;
  is_on_right : bool;
  hover_expand_enabled : bool;
  dragging : bool;
  resizing : bool;
  (* the gesture in progress *)
  mouse_press_position : QPoint;
  drag_start_position : QPoint;
  resize_start_position : QPoint;
  resize_start_size : QSize;
  resize_start_geometry : QRect;
  resize_cursor_type : option CursorShape;
  (* the sampler, created on first expansion *)
  network_monitor : option NetworkMonitor;
  (* the text of the two speed labels *)
  upload_speed_label : string;
  download_speed_label : string;
  (* [isActive()] of each [QTimer] *)
  update_timer : bool;
  auto_collapse_timer : bool;
  hide_timer : bool;
  hover_delay_timer : bool;
  launch_timer : bool;
  (* armed [QTimer.singleShot(50, collapse_widget)] calls *)
  pending_collapse : nat;
  (* the geometry Qt holds for the widget *)
  window : Window;
  (* running [QPropertyAnimation]s: start and end value *)
  animation : option (QRect * QRect);
  slide_animation : option (QRect * QRect);
  (* the content of widget_position.json *)
  position_file : FileContent;
  (* ghost: [is_expanded] at each [psutil.net_io_counters()] call *)
  io_log : list bool
}.

(** Attribute assignment, one function per attribute written by the code. *)
Definition set_panel_width (v : Z) (w : Widget) : Widget :=
  mkWidget (screen_width w) (screen_height w) v (panel_height w)
    (is_expanded w) (is_on_right w) (hover_expand_enabled w) (dragging w)
    (resizing w) (mouse_press_position w) (drag_start_position w)
    (resize_start_position w) (resize_start_size w) (resize_start_geometry w)
    (resize_cursor_type w) (network_monitor w) (upload_speed_label w)
    (download_speed_label w) (update_timer w) (auto_collapse_timer w)
    (hide_timer w) (hover_delay_timer w) (launch_timer w)
    (pending_collapse w) (window w) (animation w) (slide_animation w)
    (position_file w) (io_log w).

Definition set_panel_height (v : Z) (w : Widget) : Widget :=
  mkWidget (screen_width w) (screen_height w) (panel_width w) v
    (is_expanded w) (is_on_right w) (hover_expand_enabled w) (dragging w)
    (resizing w) (mouse_press_position w) (drag_start_position w)
    (resize_start_position w) (resize_start_size w) (resize_start_geometry w)
    (resize_cursor_type w) (network_monitor w) (upload_speed_label w)
    (download_speed_label w) (update_timer w) (auto_collapse_timer w)
    (hide_timer w) (hover_delay_timer w) (launch_timer w)
    (pending_collapse w) (window w) (animation w) (slide_animation w)
    (position_file w) (io_log w).

Definition set_is_expanded (v : bool) (w : Widget) : Widget :=
  mkWidget (screen_width w) (screen_height w) (panel_width w)
    (panel_height w) v (is_on_right w) (hover_expand_enabled w) (dragging w)
    (resizing w) (mouse_press_position w) (drag_start_position w)
    (resize_start_position w) (resize_start_size w) (resize_start_geometry w)
    (resize_cursor_type w) (network_monitor w) (upload_speed_label w)
    (download_speed_label w) (update_timer w) (auto_collapse_timer w)
    (hide_timer w) (hover_delay_timer w) (launch_timer w)
    (pending_collapse w) (window w) (animation w) (slide_animation w)
    (position_file w) (io_log w).

Definition set_is_on_right (v : bool) (w : Widget) : Widget :=
  mkWidget (screen_width w) (screen_height w) (panel_width w)
    (panel_height w) (is_expanded w) v (hover_expand_enabled w) (dragging w)
    (resizing w) (mouse_press_position w) (drag_start_position w)
    (resize_start_position w) (resize_start_size w) (resize_start_geometry w)
    (resize_cursor_type w) (network_monitor w) (upload_speed_label w)
    (download_speed_label w) (update_timer w) (auto_collapse_timer w)
    (hide_timer w) (hover_delay_timer w) (launch_timer w)
    (pending_collapse w) (window w) (animation w) (slide_animation w)
    (position_file w) (io_log w).

Definition set_hover_expand_enabled (v : bool) (w : Widget) : Widget :=
  mkWidget (screen_width w) (screen_height w) (panel_width w)
    (panel_height w) (is_expanded w) (is_on_right w) v (dragging w)
    (resizing w) (mouse_press_position w) (drag_start_position w)
    (resize_start_position w) (resize_start_size w) (resize_start_geometry w)
    (resize_cursor_type w) (network_monitor w) (upload_speed_label w)
    (download_speed_label w) (update_timer w) (auto_collapse_timer w)
    (hide_timer w) (hover_delay_timer w) (launch_timer w)
    (pending_collapse w) (window w) (animation w) (slide_animation w)
    (position_file w) (io_log w).

Definition set_dragging (v : bool) (w : Widget) : Widget :=
  mkWidget (screen_width w) (screen_height w) (panel_width w)
    (panel_height w) (is_expanded w) (is_on_right w) (hover_expand_enabled w)
    v (resizing w) (mouse_press_position w) (drag_start_position w)
    (resize_start_position w) (resize_start_size w) (resize_start_geometry w)
    (resize_cursor_type w) (network_monitor w) (upload_speed_label w)
    (download_speed_label w) (update_timer w) (auto_collapse_timer w)
    (hide_timer w) (hover_delay_timer w) (launch_timer w)
    (pending_collapse w) (window w) (animation w) (slide_animation w)
    (position_file w) (io_log w).

Definition set_resizing (v : bool) (w : Widget) : Widget :=
  mkWidget (screen_width w) (screen_height w) (panel_width w)
    (panel_height w) (is_expanded w) (is_on_right w) (hover_expand_enabled w)
    (dragging w) v (mouse_press_position w) (drag_start_position w)
    (resize_start_position w) (resize_start_size w) (resize_start_geometry w)
    (resize_cursor_type w) (network_monitor w) (upload_speed_label w)
    (download_speed_label w) (update_timer w) (auto_collapse_timer w)
    (hide_timer w) (hover_delay_timer w) (launch_timer w)
    (pending_collapse w) (window w) (animation w) (slide_animation w)
    (position_file w) (io_log w).

Definition set_mouse_press_position (v : QPoint) (w : Widget) : Widget :=
  mkWidget (screen_width w) (screen_height w) (panel_width w)
    (panel_height w) (is_expanded w) (is_on_right w) (hover_expand_enabled w)
    (dragging w) (resizing w) v (drag_start_position w)
    (resize_start_position w) (resize_start_size w) (resize_start_geometry w)
    (resize_cursor_type w) (network_monitor w) (upload_speed_label w)
    (download_speed_label w) (update_timer w) (auto_collapse_timer w)
    (hide_timer w) (hover_delay_timer w) (launch_timer w)
    (pending_collapse w) (window w) (animation w) (slide_animation w)
    (position_file w) (io_log w).

Definition set_drag_start_position (v : QPoint) (w : Widget) : Widget :=
  mkWidget (screen_width w) (screen_height w) (panel_width w)
    (panel_height w) (is_expanded w) (is_on_right w) (hover_expand_enabled w)
    (dragging w) (resizing w) (mouse_press_position w) v
    (resize_start_position w) (resize_start_size w) (resize_start_geometry w)
    (resize_cursor_type w) (network_monitor w) (upload_speed_label w)
    (download_speed_label w) (update_timer w) (auto_collapse_timer w)
    (hide_timer w) (hover_delay_timer w) (launch_timer w)
    (pending_collapse w) (window w) (animation w) (slide_animation w)
    (position_file w) (io_log w).

Definition set_resize_start_position (v : QPoint) (w : Widget) : Widget :=
  mkWidget (screen_width w) (screen_height w) (panel_width w)
    (panel_height w) (is_expanded w) (is_on_right w) (hover_expand_enabled w)
    (dragging w) (resizing w) (mouse_press_position w)
    (drag_start_position w) v (resize_start_size w) (resize_start_geometry w)
    (resize_cursor_type w) (network_monitor w) (upload_speed_label w)
    (download_speed_label w) (update_timer w) (auto_collapse_timer w)
    (hide_timer w) (hover_delay_timer w) (launch_timer w)
    (pending_collapse w) (window w) (animation w) (slide_animation w)
    (position_file w) (io_log w).

Definition set_resize_start_size (v : QSize) (w : Widget) : Widget :=
  mkWidget (screen_width w) (screen_height w) (panel_width w)
    (panel_height w) (is_expanded w) (is_on_right w) (hover_expand_enabled w)
    (dragging w) (resizing w) (mouse_press_position w)
    (drag_start_position w) (resize_start_position w) v
    (resize_start_geometry w) (resize_cursor_type w) (network_monitor w)
    (upload_speed_label w) (download_speed_label w) (update_timer w)
    (auto_collapse_timer w) (hide_timer w) (hover_delay_timer w)
    (launch_timer w) (pending_collapse w) (window w) (animation w)
    (slide_animation w) (position_file w) (io_log w).

Definition set_resize_start_geometry (v : QRect) (w : Widget) : Widget :=
  mkWidget (screen_width w) (screen_height w) (panel_width w)
    (panel_height w) (is_expanded w) (is_on_right w) (hover_expand_enabled w)
    (dragging w) (resizing w) (mouse_press_position w)
    (drag_start_position w) (resize_start_position w) (resize_start_size w) v
    (resize_cursor_type w) (network_monitor w) (upload_speed_label w)
    (download_speed_label w) (update_timer w) (auto_collapse_timer w)
    (hide_timer w) (hover_delay_timer w) (launch_timer w)
    (pending_collapse w) (window w) (animation w) (slide_animation w)
    (position_file w) (io_log w).

Definition set_resize_cursor_type (v : option CursorShape) (w : Widget) : Widget :=
  mkWidget (screen_width w) (screen_height w) (panel_width w)
    (panel_height w) (is_expanded w) (is_on_right w) (hover_expand_enabled w)
    (dragging w) (resizing w) (mouse_press_position w)
    (drag_start_position w) (resize_start_position w) (resize_start_size w)
    (resize_start_geometry w) v (network_monitor w) (upload_speed_label w)
    (download_speed_label w) (update_timer w) (auto_collapse_timer w)
    (hide_timer w) (hover_delay_timer w) (launch_timer w)
    (pending_collapse w) (window w) (animation w) (slide_animation w)
    (position_file w) (io_log w).

Definition set_network_monitor (v : option NetworkMonitor) (w : Widget) : Widget :=
  mkWidget (screen_width w) (screen_height w) (panel_width w)
    (panel_height w) (is_expanded w) (is_on_right w) (hover_expand_enabled w)
    (dragging w) (resizing w) (mouse_press_position w)
    (drag_start_position w) (resize_start_position w) (resize_start_size w)
    (resize_start_geometry w) (resize_cursor_type w) v (upload_speed_label w)
    (download_speed_label w) (update_timer w) (auto_collapse_timer w)
    (hide_timer w) (hover_delay_timer w) (launch_timer w)
    (pending_collapse w) (window w) (animation w) (slide_animation w)
    (position_file w) (io_log w).

Definition set_upload_speed_label (v : string) (w : Widget) : Widget :=
  mkWidget (screen_width w) (screen_height w) (panel_width w)
    (panel_height w) (is_expanded w) (is_on_right w) (hover_expand_enabled w)
    (dragging w) (resizing w) (mouse_press_position w)
    (drag_start_position w) (resize_start_position w) (resize_start_size w)
    (resize_start_geometry w) (resize_cursor_type w) (network_monitor w) v
    (download_speed_label w) (update_timer w) (auto_collapse_timer w)
    (hide_timer w) (hover_delay_timer w) (launch_timer w)
    (pending_collapse w) (window w) (animation w) (slide_animation w)
    (position_file w) (io_log w).

Definition set_download_speed_label (v : string) (w : Widget) : Widget :=
  mkWidget (screen_width w) (screen_height w) (panel_width w)
    (panel_height w) (is_expanded w) (is_on_right w) (hover_expand_enabled w)
    (dragging w) (resizing w) (mouse_press_position w)
    (drag_start_position w) (resize_start_position w) (resize_start_size w)
    (resize_start_geometry w) (resize_cursor_type w) (network_monitor w)
    (upload_speed_label w) v (update_timer w) (auto_collapse_timer w)
    (hide_timer w) (hover_delay_timer w) (launch_timer w)
    (pending_collapse w) (window w) (animation w) (slide_animation w)
    (position_file w) (io_log w).

Definition set_update_timer (v : bool) (w : Widget) : Widget :=
  mkWidget (screen_width w) (screen_height w) (panel_width w)
    (panel_height w) (is_expanded w) (is_on_right w) (hover_expand_enabled w)
    (dragging w) (resizing w) (mouse_press_position w)
    (drag_start_position w) (resize_start_position w) (resize_start_size w)
    (resize_start_geometry w) (resize_cursor_type w) (network_monitor w)
    (upload_speed_label w) (download_speed_label w) v (auto_collapse_timer w)
    (hide_timer w) (hover_delay_timer w) (launch_timer w)
    (pending_collapse w) (window w) (animation w) (slide_animation w)
    (position_file w) (io_log w).

Definition set_auto_collapse_timer (v : bool) (w : Widget) : Widget :=
  mkWidget (screen_width w) (screen_height w) (panel_width w)
    (panel_height w) (is_expanded w) (is_on_right w) (hover_expand_enabled w)
    (dragging w) (resizing w) (mouse_press_position w)
    (drag_start_position w) (resize_start_position w) (resize_start_size w)
    (resize_start_geometry w) (resize_cursor_type w) (network_monitor w)
    (upload_speed_label w) (download_speed_label w) (update_timer w) v
    (hide_timer w) (hover_delay_timer w) (launch_timer w)
    (pending_collapse w) (window w) (animation w) (slide_animation w)
    (position_file w) (io_log w).

Definition set_hide_timer (v : bool) (w : Widget) : Widget :=
  mkWidget (screen_width w) (screen_height w) (panel_width w)
    (panel_height w) (is_expanded w) (is_on_right w) (hover_expand_enabled w)
    (dragging w) (resizing w) (mouse_press_position w)
    (drag_start_position w) (resize_start_position w) (resize_start_size w)
    (resize_start_geometry w) (resize_cursor_type w) (network_monitor w)
    (upload_speed_label w) (download_speed_label w) (update_timer w)
    (auto_collapse_timer w) v (hover_delay_timer w) (launch_timer w)
    (pending_collapse w) (window w) (animation w) (slide_animation w)
    (position_file w) (io_log w).

Definition set_hover_delay_timer (v : bool) (w : Widget) : Widget :=
  mkWidget (screen_width w) (screen_height w) (panel_width w)
    (panel_height w) (is_expanded w) (is_on_right w) (hover_expand_enabled w)
    (dragging w) (resizing w) (mouse_press_position w)
    (drag_start_position w) (resize_start_position w) (resize_start_size w)
    (resize_start_geometry w) (resize_cursor_type w) (network_monitor w)
    (upload_speed_label w) (download_speed_label w) (update_timer w)
    (auto_collapse_timer w) (hide_timer w) v (launch_timer w)
    (pending_collapse w) (window w) (animation w) (slide_animation w)
    (position_file w) (io_log w).

Definition set_launch_timer (v : bool) (w : Widget) : Widget :=
  mkWidget (screen_width w) (screen_height w) (panel_width w)
    (panel_height w) (is_expanded w) (is_on_right w) (hover_expand_enabled w)
    (dragging w) (resizing w) (mouse_press_position w)
    (drag_start_position w) (resize_start_position w) (resize_start_size w)
    (resize_start_geometry w) (resize_cursor_type w) (network_monitor w)
    (upload_speed_label w) (download_speed_label w) (update_timer w)
    (auto_collapse_timer w) (hide_timer w) (hover_delay_timer w) v
    (pending_collapse w) (window w) (animation w) (slide_animation w)
    (position_file w) (io_log w).

Definition set_pending_collapse (v : nat) (w : Widget) : Widget :=
  mkWidget (screen_width w) (screen_height w) (panel_width w)
    (panel_height w) (is_expanded w) (is_on_right w) (hover_expand_enabled w)
    (dragging w) (resizing w) (mouse_press_position w)
    (drag_start_position w) (resize_start_position w) (resize_start_size w)
    (resize_start_geometry w) (resize_cursor_type w) (network_monitor w)
    (upload_speed_label w) (download_speed_label w) (update_timer w)
    (auto_collapse_timer w) (hide_timer w) (hover_delay_timer w)
    (launch_timer w) v (window w) (animation w) (slide_animation w)
    (position_file w) (io_log w).

Definition set_window (v : Window) (w : Widget) : Widget :=
  mkWidget (screen_width w) (screen_height w) (panel_width w)
    (panel_height w) (is_expanded w) (is_on_right w) (hover_expand_enabled w)
    (dragging w) (resizing w) (mouse_press_position w)
    (drag_start_position w) (resize_start_position w) (resize_start_size w)
    (resize_start_geometry w) (resize_cursor_type w) (network_monitor w)
    (upload_speed_label w) (download_speed_label w) (update_timer w)
    (auto_collapse_timer w) (hide_timer w) (hover_delay_timer w)
    (launch_timer w) (pending_collapse w) v (animation w) (slide_animation w)
    (position_file w) (io_log w).

Definition set_animation (v : option (QRect * QRect)) (w : Widget) : Widget :=
  mkWidget (screen_width w) (screen_height w) (panel_width w)
    (panel_height w) (is_expanded w) (is_on_right w) (hover_expand_enabled w)
    (dragging w) (resizing w) (mouse_press_position w)
    (drag_start_position w) (resize_start_position w) (resize_start_size w)
    (resize_start_geometry w) (resize_cursor_type w) (network_monitor w)
    (upload_speed_label w) (download_speed_label w) (update_timer w)
    (auto_collapse_timer w) (hide_timer w) (hover_delay_timer w)
    (launch_timer w) (pending_collapse w) (window w) v (slide_animation w)
    (position_file w) (io_log w).

Definition set_slide_animation (v : option (QRect * QRect)) (w : Widget) : Widget :=
  mkWidget (screen_width w) (screen_height w) (panel_width w)
    (panel_height w) (is_expanded w) (is_on_right w) (hover_expand_enabled w)
    (dragging w) (resizing w) (mouse_press_position w)
    (drag_start_position w) (resize_start_position w) (resize_start_size w)
    (resize_start_geometry w) (resize_cursor_type w) (network_monitor w)
    (upload_speed_label w) (download_speed_label w) (update_timer w)
    (auto_collapse_timer w) (hide_timer w) (hover_delay_timer w)
    (launch_timer w) (pending_collapse w) (window w) (animation w) v
    (position_file w) (io_log w).

Definition set_position_file (v : FileContent) (w : Widget) : Widget :=
  mkWidget (screen_width w) (screen_height w) (panel_width w)
    (panel_height w) (is_expanded w) (is_on_right w) (hover_expand_enabled w)
    (dragging w) (resizing w) (mouse_press_position w)
    (drag_start_position w) (resize_start_position w) (resize_start_size w)
    (resize_start_geometry w) (resize_cursor_type w) (network_monitor w)
    (upload_speed_label w) (download_speed_label w) (update_timer w)
    (auto_collapse_timer w) (hide_timer w) (hover_delay_timer w)
    (launch_timer w) (pending_collapse w) (window w) (animation w)
    (slide_animation w) v (io_log w).

Definition set_io_log (v : list bool) (w : Widget) : Widget :=
  mkWidget (screen_width w) (screen_height w) (panel_width w)
    (panel_height w) (is_expanded w) (is_on_right w) (hover_expand_enabled w)
    (dragging w) (resizing w) (mouse_press_position w)
    (drag_start_position w) (resize_start_position w) (resize_start_size w)
    (resize_start_geometry w) (resize_cursor_type w) (network_monitor w)
    (upload_speed_label w) (download_speed_label w) (update_timer w)
    (auto_collapse_timer w) (hide_timer w) (hover_delay_timer w)
    (launch_timer w) (pending_collapse w) (window w) (animation w)
    (slide_animation w) (position_file w) v.
(** *** Reading the window *)

Definition x (w : Widget) : Z := rx (geometry (window w)).
Definition y (w : Widget) : Z := ry (geometry (window w)).
Definition pos (w : Widget) : QPoint := topLeft (geometry (window w)).
Definition size (w : Widget) : QSize := rect_size (geometry (window w)).
(** [self.rect()]: the widget's own rectangle, at the origin. *)
Definition rect (w : Widget) : QRect :=
  mkRect 0 0 (rwidth (geometry (window w))) (rheight (geometry (window w))).

Definition move (nx ny : Z) (w : Widget) : Widget :=
  set_window (Qt.move nx ny (window w)) w.
Definition setFixedSize (nw nh : Z) (w : Widget) : Widget :=
  set_window (Qt.setFixedSize nw nh (window w)) w.
Definition setGeometry (nx ny nw nh : Z) (w : Widget) : Widget :=
  set_window (Qt.setGeometry nx ny nw nh (window w)) w.

(** *** Timers *)

Definition stop_auto_collapse_timer (w : Widget) : Widget :=
  set_auto_collapse_timer false w.

Definition reset_auto_collapse_timer (w : Widget) : Widget :=
  if is_expanded w then set_auto_collapse_timer true (set_auto_collapse_timer false w)
  else w.

Definition start_auto_collapse_timer (w : Widget) : Widget :=
  if is_expanded w then set_auto_collapse_timer true w else w.

(** *** Collapsed and expanded state *)

Definition set_collapsed_state (w : Widget) : Widget :=
  let w := set_is_expanded false w in
  let w := setFixedSize widget_width widget_height w in
  if update_timer w then set_update_timer false w else w.

(** [set_expanded_state]; creating the sampler reads the OS counters. *)
Definition set_expanded_state (os : OS) (w : Widget) : Widget :=
  let w := set_is_expanded true w in
  let w := setFixedSize (panel_width w) (panel_height w) w in
  let w :=
    match network_monitor w with
    | None =>
        set_io_log (io_log w ++ [is_expanded w])
          (set_network_monitor (Some (new_monitor os)) w)
    | Some _ => w
    end in
  set_update_timer true w.

Definition position_widget (w : Widget) : Widget :=
  if is_expanded w then
    let nx := if is_on_right w then screen_width w - panel_width w - 10 else 10 in
    let current_y :=
      if 0 <? y w then y w else (screen_height w - panel_height w) / 2 in
    let ny := Z.max 0 (Z.min current_y (screen_height w - panel_height w)) in
    move nx ny w
  else
    let nx := if is_on_right w then screen_width w - widget_width else 0 in
    let current_y :=
      if 0 <? y w then y w else (screen_height w - widget_height) / 2 in
    let ny := Z.max 0 (Z.min current_y (screen_height w - widget_height)) in
    move nx ny w.

(** *** Persistence *)

(** [save_position]; the write is taken to succeed. *)
Definition save_position (w : Widget) : Widget :=
  set_position_file
    (Object [("x", JInt (x w)); ("y", JInt (y w));
             ("width", JInt (panel_width w)); ("height", JInt (panel_height w));
             ("is_on_right", JBool (is_on_right w));
             ("is_expanded", JBool (is_expanded w));
             ("hover_expand_enabled", JBool (hover_expand_enabled w))]%string)
    w.

(** [load_position]. Each [None] of [clamp] is the [TypeError] that sends
    control to the [except] branch, with the assignments made so far kept. *)
Definition load_position (w : Widget) : Widget :=
  match position_file w with
  | NoFile => position_widget w
  | Unreadable => position_widget w
  | Object position_data =>
      let w := set_is_on_right
                 (truthy (get_default position_data "is_on_right" (JBool true))) w in
      let w := set_hover_expand_enabled
                 (truthy (get_default position_data "hover_expand_enabled" (JBool true))) w in
      let saved_width := get_default position_data "width" (JInt (panel_width w)) in
      let saved_height := get_default position_data "height" (JInt (panel_height w)) in
      match clamp min_panel_width saved_width max_panel_width with
      | None => position_widget w
      | Some new_width =>
          let w := set_panel_width new_width w in
          match clamp min_panel_height saved_height max_panel_height with
          | None => position_widget w
          | Some new_height =>
              let w := set_panel_height new_height w in
              let saved_x := get_default position_data "x" (JInt 0) in
              let saved_y := get_default position_data "y" (JInt 0) in
              let max_x := if is_expanded w then screen_width w - panel_width w
                           else screen_width w - widget_width in
              let max_y := if is_expanded w then screen_height w - panel_height w
                           else screen_height w - widget_height in
              match clamp 0 saved_x max_x with
              | None => position_widget w
              | Some nx =>
                  match clamp 0 saved_y max_y with
                  | None => position_widget w
                  | Some ny => move nx ny w
                  end
              end
          end
      end
  end.

(** *** Edge snapping *)

(** The end rectangle [animate_to_edge] computes. *)
Definition edge_rect (w : Widget) : QRect :=
  let current_rect := geometry (window w) in
  let target_x :=
    if is_expanded w then
      if is_on_right w then screen_width w - panel_width w - 10 else 10
    else
      if is_on_right w then screen_width w - widget_width else 0 in
  let target_width := if is_expanded w then panel_width w else widget_width in
  let target_height := if is_expanded w then panel_height w else widget_height in
  let target_y := Z.max 0 (Z.min (ry current_rect) (screen_height w - target_height)) in
  mkRect target_x target_y target_width target_height.

(** [animate_to_edge] starts the animation from the current geometry
    to [edge_rect]; the previous animation object is dropped. *)
Definition animate_to_edge (w : Widget) : Widget :=
  set_animation (Some (geometry (window w), edge_rect w)) w.

(** The animation reaching its end value: the geometry is the end
    rectangle and the [finished] slot saves the position. *)
Definition animation_finished (w : Widget) : Widget :=
  match animation w with
  | None => w
  | Some (_, end_rect) =>
      let w := setGeometry (rx end_rect) (ry end_rect)
                           (rwidth end_rect) (rheight end_rect) w in
      save_position (set_animation None w)
  end.

Definition snap_to_edge (w : Widget) : Widget :=
  let current_pos := pos w in
  let center_x :=
    if is_expanded w then px current_pos + panel_width w / 2
    else px current_pos + widget_width / 2 in
  let w := set_is_on_right (screen_width w / 2 <? center_x) w in
  animate_to_edge w.

Definition expand_widget (os : OS) (w : Widget) : Widget :=
  let w := set_hide_timer false w in
  let w := set_expanded_state os w in
  animate_to_edge w.

Definition collapse_widget (w : Widget) : Widget :=
  let w := stop_auto_collapse_timer w in
  let w := set_hover_delay_timer false w in
  let w := set_collapsed_state w in
  animate_to_edge w.

Definition toggle_expansion (os : OS) (w : Widget) : Widget :=
  if is_expanded w then collapse_widget w else expand_widget os w.

(** *** Sampling *)

Definition update_network_speeds (os : OS) (w : Widget) : Widget :=
  if negb (is_expanded w) then w
  else
    match network_monitor w with
    | None => w
    | Some monitor =>
        let '((upload_speed, download_speed), monitor') :=
          get_network_speed os monitor in
        let w := set_io_log (io_log w ++ [is_expanded w])
                   (set_network_monitor (Some monitor') w) in
        let upload_text := format_speed upload_speed in
        let download_text := format_speed download_speed in
        set_download_speed_label download_text
          (set_upload_speed_label upload_text w)
    end.

(** *** Launch *)

Definition show_launch_animation (os : OS) (w : Widget) : Widget :=
  let w := set_expanded_state os w in
  let final_x :=
    if is_on_right w then screen_width w - panel_width w - 10 else 10 in
  let current_y :=
    if 0 <? y w then y w else (screen_height w - panel_height w) / 2 in
  let final_y := Z.max 0 (Z.min current_y (screen_height w - panel_height w)) in
  let start_x := if is_on_right w then screen_width w else - panel_width w in
  let w := move start_x final_y w in
  let start_rect := mkRect start_x final_y (panel_width w) (panel_height w) in
  let end_rect := mkRect final_x final_y (panel_width w) (panel_height w) in
  let w := set_slide_animation (Some (start_rect, end_rect)) w in
  set_launch_timer true w.

(** The slide-in animation reaching its end value. *)
Definition slide_finished (w : Widget) : Widget :=
  match slide_animation w with
  | None => w
  | Some (_, end_rect) =>
      set_slide_animation None
        (setGeometry (rx end_rect) (ry end_rect)
                     (rwidth end_rect) (rheight end_rect) w)
  end.

Definition initial_collapse (w : Widget) : Widget := collapse_widget w.

(** *** Resizing *)

Definition get_resize_cursor_zone (p : QPoint) (w : Widget) : option CursorShape :=
  if negb (is_expanded w) then None
  else
    let margin := resize_threshold in
    let r := rect w in
    if (px p <=? margin) && (py p <=? margin) then Some SizeFDiagCursor
    else if (rwidth r - margin <=? px p) && (py p <=? margin) then Some SizeBDiagCursor
    else if (px p <=? margin) && (rheight r - margin <=? py p) then Some SizeBDiagCursor
    else if (rwidth r - margin <=? px p) && (rheight r - margin <=? py p)
         then Some SizeFDiagCursor
    else if px p <=? margin then Some SizeHorCursor
    else if rwidth r - margin <=? px p then Some SizeHorCursor
    else if py p <=? margin then Some SizeVerCursor
    else if rheight r - margin <=? py p then Some SizeVerCursor
    else None.

Definition start_resize (p : QPoint) (cursor_type : CursorShape) (w : Widget)
  : Widget :=
  let w := set_resizing true w in
  let w := set_resize_start_position p w in
  let w := set_resize_start_size (size w) w in
  let w := set_resize_start_geometry (geometry (window w)) w in
  let w := set_resize_cursor_type (Some cursor_type) w in
  stop_auto_collapse_timer w.

(** The size and position [perform_resize] asks for, before the size
    constraints: [(new_width, new_height, new_x, new_y)]. *)
Definition resize_request (p : QPoint) (w : Widget) : Z * Z * Z * Z :=
  let delta := point_sub p (resize_start_position w) in
  let start_w := width (resize_start_size w) in
  let start_h := height (resize_start_size w) in
  let start_x := rx (resize_start_geometry w) in
  let start_y := ry (resize_start_geometry w) in
  let start_local_x := px (resize_start_position w) - start_x in
  let start_local_y := py (resize_start_position w) - start_y in
  match resize_cursor_type w with
  | Some SizeHorCursor =>
      if start_local_x <=? resize_threshold
      then (start_w - px delta, start_h, start_x + px delta, start_y)
      else (start_w + px delta, start_h, start_x, start_y)
  | Some SizeVerCursor =>
      if start_local_y <=? resize_threshold
      then (start_w, start_h - py delta, start_x, start_y + py delta)
      else (start_w, start_h + py delta, start_x, start_y)
  | Some SizeFDiagCursor =>
      if (start_local_x <=? resize_threshold) && (start_local_y <=? resize_threshold)
      then (start_w - px delta, start_h - py delta,
            start_x + px delta, start_y + py delta)
      else (start_w + px delta, start_h + py delta, start_x, start_y)
  | Some SizeBDiagCursor =>
      if (rwidth (rect w) - resize_threshold <=? start_local_x)
         && (start_local_y <=? resize_threshold)
      then (start_w + px delta, start_h - py delta, start_x, start_y + py delta)
      else (start_w - px delta, start_h + py delta, start_x + px delta, start_y)
  | _ => (start_w, start_h, start_x, start_y)
  end.

Definition perform_resize (p : QPoint) (w : Widget) : Widget :=
  if negb (resizing w) then w
  else
    let '(new_width, new_height, new_x, new_y) := resize_request p w in
    let start_x := rx (resize_start_geometry w) in
    let start_y := ry (resize_start_geometry w) in
    let constrained_width :=
      Z.max min_panel_width (Z.min new_width max_panel_width) in
    let constrained_height :=
      Z.max min_panel_height (Z.min new_height max_panel_height) in
    let new_x :=
      if negb (new_width =? constrained_width) && negb (new_x =? start_x)
      then start_x + (width (resize_start_size w) - constrained_width)
      else new_x in
    let new_y :=
      if negb (new_height =? constrained_height) && negb (new_y =? start_y)
      then start_y + (height (resize_start_size w) - constrained_height)
      else new_y in
    let w := set_panel_width constrained_width w in
    let w := set_panel_height constrained_height w in
    setGeometry new_x new_y constrained_width constrained_height w.

Definition finish_resize (w : Widget) : Widget :=
  if resizing w then
    let w := set_resizing false w in
    let w := setFixedSize (panel_width w) (panel_height w) w in
    save_position w
  else w.

(** *** Pointer events *)

Definition mousePressEvent (button : MouseButton) (local_pos globalPos : QPoint)
  (w : Widget) : Widget :=
  match button with
  | LeftButton =>
      let w := set_mouse_press_position globalPos w in
      let w := set_drag_start_position
                 (point_sub globalPos (topLeft (geometry (window w)))) w in
      let w := set_dragging false w in
      let w := set_resizing false w in
      if is_expanded w then
        match get_resize_cursor_zone local_pos w with
        | Some resize_cursor => start_resize (mouse_press_position w) resize_cursor w
        | None => reset_auto_collapse_timer w
        end
      else w
  | _ => w
  end.

Definition mouseMoveEvent (buttons : MouseButtons) (local_pos globalPos : QPoint)
  (w : Widget) : Widget :=
  if only_left buttons then
    if resizing w then perform_resize globalPos w
    else
      let w :=
        if negb (dragging w) && negb (resizing w) then
          let move_distance :=
            manhattanLength (point_sub globalPos (mouse_press_position w)) in
          if drag_threshold <? move_distance
          then stop_auto_collapse_timer (set_dragging true w)
          else w
        else w in
      if dragging w then
        let new_pos := point_sub globalPos (drag_start_position w) in
        move (px new_pos) (py new_pos) w
      else w
  else w.

Definition mouseReleaseEvent (os : OS) (button : MouseButton) (w : Widget)
  : Widget :=
  match button with
  | LeftButton =>
      if resizing w then finish_resize w
      else if dragging w then set_dragging false (snap_to_edge w)
      else if is_expanded w then collapse_widget w
      else if negb (hover_expand_enabled w) then expand_widget os w
      else w
  | _ => w
  end.

Definition enterEvent (os : OS) (w : Widget) : Widget :=
  let w := set_hover_delay_timer false w in
  if hover_expand_enabled w && negb (is_expanded w)
     && negb (dragging w) && negb (resizing w)
  then expand_widget os w
  else w.

Definition leaveEvent (w : Widget) : Widget :=
  if hover_expand_enabled w && is_expanded w
     && negb (dragging w) && negb (resizing w)
  then set_hover_delay_timer true w
  else w.

Definition toggle_hover_expand (w : Widget) : Widget :=
  save_position (set_hover_expand_enabled (negb (hover_expand_enabled w)) w).

Definition close_button_clicked (w : Widget) : Widget := save_position w.

(** [GlobalClickFilter.eventFilter] on a left press or a first touch
    point at global position [p]. *)
Definition eventFilter_press (p : QPoint) (w : Widget) : Widget :=
  if is_expanded w then
    if negb (contains (geometry (window w)) p)
    then set_pending_collapse (S (pending_collapse w)) w
    else reset_auto_collapse_timer w
  else w.

(** [NetworkMonitorApp.show_monitor], from the tray menu. *)
Definition show_monitor (os : OS) (w : Widget) : Widget :=
  if negb (is_expanded w) then expand_widget os w else w.

(** *** Painting and fonts *)

(** [paintEvent]: the ellipses drawn, as rectangles in widget
    coordinates; nothing is drawn on an expanded widget. *)
Definition paint_dots (w : Widget) : list QRect :=
  if negb (is_expanded w) then
    let dot_size := 2 in
    let spacing := 6 in
    let start_y :=
      (rheight (geometry (window w)) - (3 * dot_size + 2 * spacing)) / 2 in
    map (fun i =>
           mkRect (rwidth (geometry (window w)) / 2 - dot_size / 2)
                  (start_y + i * (dot_size + spacing))
                  dot_size dot_size)
        [0; 1; 2]
  else [].

(** The point size [update_title_font] sets; [None] if the computation
    raises. *)
Definition title_point_size (w : Widget) : option Z :=
  let available_width := panel_width w - 50 in
  match Py.int_truediv available_width 18 with
  | Some n => Some (Z.max 8 (Z.min 14 n))
  | None => None
  end.

(** The point sizes [update_label_fonts] sets: labels and speeds. *)
Definition label_point_sizes (w : Widget) : option (Z * Z) :=
  match Py.int_truediv (panel_width w) 25, Py.int_truediv (panel_width w) 18 with
  | Some n, Some k => Some (Z.max 7 (Z.min 12 n), Z.max 10 (Z.min 18 k))
  | _, _ => None
  end.

(** *** The event loop *)

(** What the toolkit delivers to the widget: pointer events, timer
    expiries, the end of an animation, clicks on the two title buttons,
    presses seen by the application-wide filter, the tray menu. *)
Inductive Event :=
| MousePress (button : MouseButton) (local_pos globalPos : QPoint)
| MouseMove (buttons : MouseButtons) (local_pos globalPos : QPoint)
| MouseRelease (button : MouseButton)
| Enter
| Leave
| UpdateTimeout
| AutoCollapseTimeout
| HideTimeout
| HoverDelayTimeout
| LaunchTimeout
| DeferredCollapse
| AnimationFinished
| SlideFinished
| ToggleClicked
| CloseClicked
| FilterPress (globalPos : QPoint)
| TrayShowMonitor.

(** One turn of the event loop. A timer fires only while active, and a
    single-shot timer is inactive once it has fired. *)
Definition handle (os : OS) (e : Event) (w : Widget) : Widget :=
  match e with
  | MousePress button local_pos globalPos =>
      mousePressEvent button local_pos globalPos w
  | MouseMove buttons local_pos globalPos =>
      mouseMoveEvent buttons local_pos globalPos w
  | MouseRelease button => mouseReleaseEvent os button w
  | Enter => enterEvent os w
  | Leave => leaveEvent w
  | UpdateTimeout =>
      if update_timer w then update_network_speeds os w else w
  | AutoCollapseTimeout =>
      if auto_collapse_timer w
      then collapse_widget (set_auto_collapse_timer false w) else w
  | HideTimeout =>
      if hide_timer w then collapse_widget (set_hide_timer false w) else w
  | HoverDelayTimeout =>
      if hover_delay_timer w
      then collapse_widget (set_hover_delay_timer false w) else w
  | LaunchTimeout =>
      if launch_timer w then initial_collapse (set_launch_timer false w) else w
  | DeferredCollapse =>
      match pending_collapse w with
      | O => w
      | S n => collapse_widget (set_pending_collapse n w)
      end
  | AnimationFinished => animation_finished w
  | SlideFinished => slide_finished w
  | ToggleClicked => toggle_hover_expand w
  | CloseClicked => close_button_clicked w
  | FilterPress globalPos => eventFilter_press globalPos w
  | TrayShowMonitor => show_monitor os w
  end.

(** The attributes as [__init__] assigns them, before the first call
    of [set_collapsed_state]; a fresh top-level [QWidget] is 640 by 480
    at the origin and unconstrained. *)
Definition blank (screen_w screen_h : Z) (file : FileContent) : Widget :=
  mkWidget screen_w screen_h 280 160
    false true true false false
    (mkPoint 0 0) (mkPoint 0 0) (mkPoint 0 0) (mkSize (-1) (-1))
    (mkRect 0 0 0 0) None
    None "0.00 Mbps" "0.00 Mbps"
    false false false false false
    O
    (mkWindow (mkRect 0 0 640 480) (mkSize 0 0)
              (mkSize QWIDGETSIZE_MAX QWIDGETSIZE_MAX))
    None None
    file
    [].

(** [UnifiedNetworkWidget.__init__]. *)
Definition init (screen_w screen_h : Z) (file : FileContent) (os : OS) : Widget :=
  let w := blank screen_w screen_h file in
  let w := set_collapsed_state w in
  let w := load_position w in
  show_launch_animation os w.

(** The states the running application can be in. *)
Inductive reachable : Widget -> Prop :=
| reachable_init : forall screen_w screen_h file os,
    reachable (init screen_w screen_h file os)
| reachable_handle : forall os e w,
    reachable w -> reachable (handle os e w).

(** Running a list of events, each with the OS as it is then. *)
Fixpoint run (es : list (OS * Event)) (w : Widget) : Widget :=
  match es with
  | [] => w
  | (os, e) :: es' => run es' (handle os e w)
  end.

(** *** A press, moves with the left button held, a release *)

Definition left_held : MouseButtons := mkButtons true false false.

(** The moves of one gesture, each given by the local and the global
    position of the pointer. *)
Fixpoint held_moves (moves : list (QPoint * QPoint)) (w : Widget) : Widget :=
  match moves with
  | [] => w
  | (local_pos, globalPos) :: rest =>
      held_moves rest (mouseMoveEvent left_held local_pos globalPos w)
  end.

(** The moves of one gesture with the buttons held during each: the
    buttons, then the local and the global position of the pointer. *)
Fixpoint gesture_moves (moves : list (MouseButtons * (QPoint * QPoint)))
  (w : Widget) : Widget :=
  match moves with
  | [] => w
  | (buttons, (local_pos, globalPos)) :: rest =>
      gesture_moves rest (mouseMoveEvent buttons local_pos globalPos w)
  end.

(** Of the moves of a gesture, those made with the left button alone. *)
Definition left_only_moves (moves : list (MouseButtons * (QPoint * QPoint)))
  : list (QPoint * QPoint) :=
  map snd (filter (fun m => only_left (fst m)) moves).

(** The pointer is further than [drag_threshold] from where it was pressed. *)
Definition beyond_threshold (press globalPos : QPoint) : bool :=
  drag_threshold <? manhattanLength (point_sub globalPos press).

(** A press at [local_pos] lands in a resize zone. *)
Definition in_resize_zone (local_pos : QPoint) (w : Widget) : bool :=
  match get_resize_cursor_zone local_pos w with
  | Some _ => true
  | None => false
  end.

(** *** A session on a 1920 by 1080 screen, no saved position *)

Definition os0 : OS := mkOS 100.5 (Some (mkCounters 1048576 0)).

(** After [__init__]: expanded, about to slide in from the right. *)
Definition launched : Widget := init 1920 1080 NoFile os0.

(** The slide-in is over: the panel sits at (1630, 520). *)
Definition shown : Widget := handle os0 SlideFinished launched.

(** The panel is grabbed at its local point (100, 80) and the pointer
    taken to the screen point (50, 40). *)
Definition dragged : Widget :=
  run [(os0, MousePress LeftButton (mkPoint 100 80) (mkPoint 1730 600));
       (os0, MouseMove left_held (mkPoint (-1580) (-480)) (mkPoint 50 40))]
      shown.

(** The left edge of the shown panel is grabbed at (1632, 600) and
    pulled to the screen point (1000, 600). *)
Definition resized : Widget :=
  run [(os0, MousePress LeftButton (mkPoint 2 80) (mkPoint 1632 600));
       (os0, MouseMove left_held (mkPoint (-630) 80) (mkPoint 1000 600))]
      shown.

(** The launch timer has collapsed the widget to the right edge. *)
Definition docked : Widget :=
  run [(os0, LaunchTimeout); (os0, AnimationFinished)] shown.

(** *** Predicates the claims are stated with *)

(** The six attributes making up the widget state. *)
Definition widget_state (w : Widget)
  : bool * bool * QPoint * QSize * bool * bool :=
  (is_expanded w, is_on_right w, pos w, size w, dragging w, resizing w).

Definition panel_within_limits (w : Widget) : Prop :=
  min_panel_width <= panel_width w <= max_panel_width /\
  min_panel_height <= panel_height w <= max_panel_height.

(** Rectangle [r] lies on a screen of the given size. *)
Definition on_screen (screen_w screen_h : Z) (r : QRect) : Prop :=
  0 <= rx r <= screen_w - rwidth r /\ 0 <= ry r <= screen_h - rheight r.

(** [dragging] and [resizing] are not both set. *)
Definition flags_exclusive (w : Widget) : Prop :=
  dragging w && resizing w = false.

(** Every recorded read of the OS counters was made while expanded. *)
Definition all_expanded (log : list bool) : Prop :=
  Forall (fun expanded => expanded = true) log.

(** The update timer runs exactly while expanded, and so did every read. *)
Definition sampling_inv (w : Widget) : Prop :=
  update_timer w = is_expanded w /\ all_expanded (io_log w).

(** The width and height the controller takes as current. *)
Definition current_width (w : Widget) : Z :=
  if is_expanded w then panel_width w else widget_width.
Definition current_height (w : Widget) : Z :=
  if is_expanded w then panel_height w else widget_height.

(** The window has a fixed size: minimum, maximum and current size agree. *)
Definition window_fixed (win : Window) : Prop :=
  minimumSize win = maximumSize win /\ rect_size (geometry win) = minimumSize win.

(** No timer that would collapse the widget runs while it is collapsed
    already, apart from the launch timer. *)
Definition collapse_timers_idle (w : Widget) : Prop :=
  is_expanded w = false ->
  auto_collapse_timer w = false /\ hover_delay_timer w = false.

(** An expanded widget has its sampler. *)
Definition sampler_ready (w : Widget) : Prop :=
  is_expanded w = true -> network_monitor w <> None.

(** The first steps of [__init__] of the next run, up to and including
    [load_position], on a screen of the given size. *)
Definition restore (screen_w screen_h : Z) (file : FileContent) : Widget :=
  load_position (set_collapsed_state (blank screen_w screen_h file)).

End Controller.

(* ================================================================= *)
(** * Properties of the rate sampler *)

Section SamplerFacts.

Import Sampler.

Open Scope float_scope.

(** A float that is not [<= 0] is not zero: the division of
    [get_network_speed] never raises [ZeroDivisionError]. *)
Lemma not_leb_zero_not_zero (t : float) :
  (t <=? 0) = false -> is_zero t = false.
Proof.
  unfold is_zero, zero. rewrite leb_spec, eqb_spec.
  unfold SFleb, SFeqb.
  destruct (SFcompare (Prim2SF t) (Prim2SF 0)) as [[ | | ] | ];
    intros H; try reflexivity; discriminate H.
Qed.

Lemma to_mbps_value (bytes_diff : Z) (time_diff d : float) :
  (time_diff <=? 0) = false ->
  Py.int_to_float bytes_diff = Some d ->
  to_mbps bytes_diff time_diff = Some (d / time_diff * 8 / 1048576).
Proof.
  intros Ht Hd. unfold to_mbps, Py.truediv_int_float.
  rewrite Hd, (not_leb_zero_not_zero _ Ht). reflexivity.
Qed.

(** C1. On a successful sample (the counters are read, the elapsed time
    is not [<= 0], both deltas convert to float) [get_network_speed]
    returns upload = delta_sent / elapsed * 8 / (1024*1024) and download
    likewise from the received bytes, and the instance then stores the
    counters and the time just sampled. *)
Theorem get_network_speed_sample :
  forall (os : OS) (m : NetworkMonitor) (stats : Counters) (ds dr : float),
    os_counters os = Some stats ->
    (os_time os - last_time m <=? 0) = false ->
    Py.int_to_float (bytes_sent stats - last_bytes_sent m) = Some ds ->
    Py.int_to_float (bytes_recv stats - last_bytes_recv m) = Some dr ->
    get_network_speed os m =
      ((ds / (os_time os - last_time m) * 8 / 1048576,
        dr / (os_time os - last_time m) * 8 / 1048576),
       mkMonitor (bytes_sent stats) (bytes_recv stats) (os_time os)).
Proof.
  intros os m stats ds dr Hc Ht Hs Hr.
  unfold get_network_speed. rewrite Hc, Ht.
  rewrite (to_mbps_value _ _ _ Ht Hs), (to_mbps_value _ _ _ Ht Hr).
  reflexivity.
Qed.

(** Two megabytes sent and one received in one second: 16 and 8 Mbps. *)
Lemma get_network_speed_sample_witness :
  get_network_speed (mkOS 101.5 (Some (mkCounters 3145728 1048576)))
                    (mkMonitor 1048576 0 100.5)
  = ((16, 8), mkMonitor 3145728 1048576 101.5).
Proof.
  exact (get_network_speed_sample
           (mkOS 101.5 (Some (mkCounters 3145728 1048576)))
           (mkMonitor 1048576 0 100.5) (mkCounters 3145728 1048576)
           2097152 1048576 eq_refl eq_refl eq_refl eq_refl).
Defined.

(** C9. When reading the counters raises, or the elapsed time is zero
    or negative, [get_network_speed] returns (0.0, 0.0) and leaves
    [last_bytes_sent], [last_bytes_recv] and [last_time] as they were. *)
Theorem get_network_speed_no_sample :
  forall (os : OS) (m : NetworkMonitor),
    os_counters os = None \/ (os_time os - last_time m <=? 0) = true ->
    get_network_speed os m = ((0, 0), m).
Proof.
  intros os m [Hc | Ht]; unfold get_network_speed.
  - rewrite Hc. reflexivity.
  - destruct (os_counters os); [rewrite Ht | ]; reflexivity.
Qed.

Lemma get_network_speed_no_sample_witness :
  get_network_speed (mkOS 100.5 (Some (mkCounters 3145728 1048576)))
                    (mkMonitor 1048576 0 100.5)
  = ((0, 0), mkMonitor 1048576 0 100.5)
  /\ get_network_speed (mkOS 101.5 None) (mkMonitor 1048576 0 100.5)
     = ((0, 0), mkMonitor 1048576 0 100.5).
Proof.
  split.
  - apply (get_network_speed_no_sample
             (mkOS 100.5 (Some (mkCounters 3145728 1048576)))
             (mkMonitor 1048576 0 100.5)).
    right. reflexivity.
  - apply (get_network_speed_no_sample (mkOS 101.5 None)
             (mkMonitor 1048576 0 100.5)).
    left. reflexivity.
Defined.

(** The state is also kept when a delta is too large for a float. *)
Lemma get_network_speed_overflow :
  get_network_speed (mkOS 101.5 (Some (mkCounters (2 ^ 1024) 0)))
                    (mkMonitor 0 0 100.5)
  = ((0, 0), mkMonitor 0 0 100.5).
Proof. vm_compute. reflexivity. Qed.

(** C5. [format_speed s] is [s] with two decimals followed by " Mbps"
    when [s >= 1.0], and otherwise [s * 1024] with one decimal followed
    by " Kbps". *)
Theorem format_speed_spec :
  forall s : float,
    ((1 <=? s) = true ->
       format_speed s = (Py.format_f 2 s ++ " Mbps")%string) /\
    ((1 <=? s) = false ->
       format_speed s = (Py.format_f 1 (s * 1024) ++ " Kbps")%string).
Proof.
  intros s. unfold format_speed.
  split; intros H; rewrite H; reflexivity.
Qed.

Lemma format_speed_spec_witness :
  format_speed 1.5 = "1.50 Mbps"%string /\
  format_speed 0.5 = "512.0 Kbps"%string.
Proof.
  split.
  - rewrite (proj1 (format_speed_spec 1.5) eq_refl). vm_compute. reflexivity.
  - rewrite (proj2 (format_speed_spec 0.5) eq_refl). vm_compute. reflexivity.
Defined.

(** The formatting on values the widget shows. *)
Example format_speed_two_decimals :
  format_speed 2.675 = "2.67 Mbps"%string /\
  format_speed 123456.789 = "123456.79 Mbps"%string /\
  format_speed 1 = "1.00 Mbps"%string.
Proof. vm_compute. repeat split. Qed.

Example format_speed_kbps :
  format_speed 0 = "0.0 Kbps"%string /\
  format_speed 0.25 = "256.0 Kbps"%string /\
  format_speed 0.000146484375 = "0.1 Kbps"%string /\
  format_speed nan = "nan Kbps"%string.
Proof. vm_compute. repeat split. Qed.

End SamplerFacts.

(* ================================================================= *)
(** * Further properties of the rate sampler *)

Section SamplerIdle.

Import Sampler.

Open Scope float_scope.

(** Zero divided by a positive float is zero. *)
Lemma zero_div_positive (t : float) :
  (0 <? t) = true -> 0 / t = 0.
Proof.
  rewrite ltb_spec. intros Hlt.
  rewrite <- (SF2Prim_Prim2SF (0 / t)), div_spec.
  change (Prim2SF 0) with (S754_zero false) in *.
  destruct (Prim2SF t) as [s | s | | s m e];
    try discriminate Hlt; destruct s; try discriminate Hlt; reflexivity.
Qed.

Lemma positive_not_leb_zero (t : float) :
  (0 <? t) = true -> (t <=? 0) = false.
Proof.
  rewrite ltb_spec, leb_spec.
  change (Prim2SF 0) with (S754_zero false).
  destruct (Prim2SF t) as [s | s | | s m e];
    try discriminate; destruct s; try discriminate; reflexivity.
Qed.

(** X13. When the counters have not moved since the last sample and
    time has advanced, [get_network_speed] returns exactly (0.0, 0.0),
    which [format_speed] shows as "0.0 Kbps", and the stored time moves
    to the new sample. *)
Theorem idle_link_reports_zero :
  forall (os : OS) (m : NetworkMonitor) (stats : Counters),
    os_counters os = Some stats ->
    bytes_sent stats = last_bytes_sent m ->
    bytes_recv stats = last_bytes_recv m ->
    (0 <? os_time os - last_time m) = true ->
    get_network_speed os m =
      ((0, 0), mkMonitor (last_bytes_sent m) (last_bytes_recv m) (os_time os)) /\
    format_speed (fst (fst (get_network_speed os m))) = "0.0 Kbps"%string.
Proof.
  intros os m stats Hc Hs Hr Ht.
  assert (E : get_network_speed os m =
              ((0, 0), mkMonitor (last_bytes_sent m) (last_bytes_recv m)
                                 (os_time os))).
  { unfold get_network_speed. rewrite Hc, (positive_not_leb_zero _ Ht).
    rewrite Hs, Hr, !Z.sub_diag.
    unfold to_mbps, Py.truediv_int_float.
    change (Py.int_to_float 0) with (Some 0).
    rewrite (not_leb_zero_not_zero _ (positive_not_leb_zero _ Ht)).
    rewrite (zero_div_positive _ Ht).
    change (0 * 8 / 1048576) with 0. reflexivity. }
  split; [exact E | ]. rewrite E. vm_compute. reflexivity.
Qed.

(** One second after the sampler was created, with the counters where
    they were. *)
Lemma idle_link_reports_zero_witness :
  get_network_speed (mkOS 101.5 (Some (mkCounters 1048576 0))) (new_monitor os_at_launch)
  = ((0, 0), mkMonitor 1048576 0 101.5).
Proof.
  exact (proj1 (idle_link_reports_zero
                  (mkOS 101.5 (Some (mkCounters 1048576 0)))
                  (new_monitor os_at_launch) (mkCounters 1048576 0)
                  eq_refl eq_refl eq_refl eq_refl)).
Defined.

End SamplerIdle.

(* ================================================================= *)
(** * Properties of the geometry controller *)

Section ControllerFacts.

Import Qt Json Sampler Controller.

(** Splitting on the conditions met in a handler. *)
Ltac split_cond :=
  match goal with
  | |- context [if ?b then _ else _] => destruct b eqn:?
  | |- context [match ?o with Some _ => _ | None => _ end] => destruct o eqn:?
  | |- context [let '(_, _) := ?p in _] => destruct p eqn:?
  end.

Ltac by_cases := repeat (simpl; try split_cond); simpl; auto.

(** An invariant of [init] kept by [handle] holds in every reachable state. *)
Lemma reachable_ind_inv (P : Widget -> Prop) :
  (forall screen_w screen_h file os, P (init screen_w screen_h file os)) ->
  (forall os e w, P w -> P (handle os e w)) ->
  forall w, reachable w -> P w.
Proof.
  intros Hinit Hstep w Hr. induction Hr; auto.
Qed.

Lemma reachable_run (es : list (OS * Event)) :
  forall w, reachable w -> reachable (run es w).
Proof.
  induction es as [ | [os e] es IH]; intros w Hr; simpl; auto.
  apply IH. constructor. exact Hr.
Qed.

(** *** What each method leaves alone *)

Lemma animate_to_edge_flags (w : Widget) :
  dragging (animate_to_edge w) = dragging w /\
  resizing (animate_to_edge w) = resizing w /\
  is_expanded (animate_to_edge w) = is_expanded w /\
  update_timer (animate_to_edge w) = update_timer w /\
  io_log (animate_to_edge w) = io_log w /\
  panel_width (animate_to_edge w) = panel_width w /\
  panel_height (animate_to_edge w) = panel_height w.
Proof. repeat split. Qed.

Lemma collapse_widget_flags (w : Widget) :
  dragging (collapse_widget w) = dragging w /\
  resizing (collapse_widget w) = resizing w /\
  is_expanded (collapse_widget w) = false /\
  update_timer (collapse_widget w) = false /\
  io_log (collapse_widget w) = io_log w /\
  panel_width (collapse_widget w) = panel_width w /\
  panel_height (collapse_widget w) = panel_height w.
Proof.
  unfold collapse_widget, set_collapsed_state, animate_to_edge.
  by_cases; repeat split; auto.
Qed.


(** The general form of [split_cond], for any scrutinee. *)
Ltac split_any :=
  match goal with
  | |- context [if ?b then _ else _] => destruct b eqn:?
  | |- context [match ?o with _ => _ end] => destruct o eqn:?
  end.

Ltac split_bool :=
  match goal with
  | |- context [andb ?b _] => is_var b; destruct b
  | H : context [andb ?b _] |- _ => is_var b; destruct b
  end.

Ltac brute :=
  repeat (simpl in *; try congruence; try split_any);
  repeat (split_bool; simpl in *; try congruence).

Ltac unfold_methods :=
  unfold mousePressEvent, mouseMoveEvent, mouseReleaseEvent, enterEvent,
    leaveEvent, update_network_speeds, initial_collapse, collapse_widget,
    expand_widget, animation_finished, slide_finished, toggle_hover_expand,
    close_button_clicked, eventFilter_press, show_monitor, show_launch_animation,
    set_collapsed_state, set_expanded_state, animate_to_edge, save_position,
    finish_resize, snap_to_edge, start_resize, reset_auto_collapse_timer,
    stop_auto_collapse_timer, position_widget,
    setGeometry, setFixedSize, move in *.

Lemma perform_resize_flags (p : QPoint) (w : Widget) :
  dragging (perform_resize p w) = dragging w /\
  resizing (perform_resize p w) = resizing w /\
  is_expanded (perform_resize p w) = is_expanded w /\
  update_timer (perform_resize p w) = update_timer w /\
  io_log (perform_resize p w) = io_log w.
Proof.
  unfold perform_resize.
  destruct (resizing w) eqn:Hr; simpl; [ | auto].
  destruct (resize_request p w) as [[[nw nh] nx] ny]; simpl.
  rewrite Hr. auto.
Qed.

Lemma perform_resize_panel (p : QPoint) (w : Widget) :
  resizing w = true -> panel_within_limits (perform_resize p w).
Proof.
  intros Hr. unfold perform_resize, panel_within_limits. rewrite Hr. simpl.
  destruct (resize_request p w) as [[[nw nh] nx] ny]; simpl.
  unfold min_panel_width, max_panel_width, min_panel_height, max_panel_height.
  lia.
Qed.

Lemma perform_resize_idle (p : QPoint) (w : Widget) :
  resizing w = false -> perform_resize p w = w.
Proof. intros Hr. unfold perform_resize. rewrite Hr. reflexivity. Qed.

(** *** Dragging and resizing exclude each other *)

Lemma handle_flags_exclusive (os : OS) (e : Event) (w : Widget) :
  flags_exclusive w -> flags_exclusive (handle os e w).
Proof.
  unfold flags_exclusive. intros H.
  destruct e; unfold handle;
    try (unfold_methods; destruct w; simpl in *; brute; fail).
  unfold mouseMoveEvent.
  destruct (only_left buttons); [ | exact H].
  destruct (resizing w) eqn:Hr.
  - destruct (perform_resize_flags globalPos w) as (-> & -> & _).
    rewrite Hr. exact H.
  - unfold_methods; destruct w; simpl in *; brute.
Qed.

(** The attributes the three invariants read, across the methods
    [__init__] calls. *)
Lemma set_collapsed_state_tracked (w : Widget) :
  dragging (set_collapsed_state w) = dragging w /\
  resizing (set_collapsed_state w) = resizing w /\
  panel_width (set_collapsed_state w) = panel_width w /\
  panel_height (set_collapsed_state w) = panel_height w /\
  is_expanded (set_collapsed_state w) = false /\
  update_timer (set_collapsed_state w) = false /\
  io_log (set_collapsed_state w) = io_log w.
Proof.
  unfold set_collapsed_state, setFixedSize. destruct w; simpl.
  destruct update_timer0; simpl; auto 10.
Qed.

Lemma position_widget_tracked (w : Widget) :
  dragging (position_widget w) = dragging w /\
  resizing (position_widget w) = resizing w /\
  panel_width (position_widget w) = panel_width w /\
  panel_height (position_widget w) = panel_height w /\
  is_expanded (position_widget w) = is_expanded w /\
  update_timer (position_widget w) = update_timer w /\
  io_log (position_widget w) = io_log w.
Proof.
  unfold position_widget, move. destruct (is_expanded w) eqn:He; simpl; auto 10.
Qed.

Lemma load_position_tracked (w : Widget) :
  dragging (load_position w) = dragging w /\
  resizing (load_position w) = resizing w /\
  is_expanded (load_position w) = is_expanded w /\
  update_timer (load_position w) = update_timer w /\
  io_log (load_position w) = io_log w.
Proof.
  unfold load_position.
  repeat match goal with
         | |- context [match ?o with _ => _ end] => destruct o
         end;
    try match goal with
        | |- context [position_widget ?v] =>
            destruct (position_widget_tracked v) as (-> & -> & _ & _ & -> & -> & ->)
        end;
    simpl; auto.
Qed.

Lemma set_expanded_state_tracked (os : OS) (w : Widget) :
  dragging (set_expanded_state os w) = dragging w /\
  resizing (set_expanded_state os w) = resizing w /\
  panel_width (set_expanded_state os w) = panel_width w /\
  panel_height (set_expanded_state os w) = panel_height w /\
  is_expanded (set_expanded_state os w) = true /\
  update_timer (set_expanded_state os w) = true /\
  (io_log (set_expanded_state os w) = io_log w \/
   io_log (set_expanded_state os w) = io_log w ++ [true]).
Proof.
  unfold set_expanded_state, setFixedSize. destruct w; simpl.
  destruct network_monitor0; simpl; auto 10.
Qed.

Lemma show_launch_animation_tracked (os : OS) (w : Widget) :
  dragging (show_launch_animation os w) = dragging w /\
  resizing (show_launch_animation os w) = resizing w /\
  panel_width (show_launch_animation os w) = panel_width w /\
  panel_height (show_launch_animation os w) = panel_height w /\
  is_expanded (show_launch_animation os w) = true /\
  update_timer (show_launch_animation os w) = true /\
  (io_log (show_launch_animation os w) = io_log w \/
   io_log (show_launch_animation os w) = io_log w ++ [true]).
Proof.
  unfold show_launch_animation, move. simpl.
  apply set_expanded_state_tracked.
Qed.

Lemma init_flags_exclusive screen_w screen_h file os :
  flags_exclusive (init screen_w screen_h file os).
Proof.
  unfold flags_exclusive, init.
  destruct (show_launch_animation_tracked os
              (load_position (set_collapsed_state (blank screen_w screen_h file))))
    as (-> & -> & _).
  destruct (load_position_tracked (set_collapsed_state (blank screen_w screen_h file)))
    as (-> & -> & _).
  reflexivity.
Qed.

(** *** The panel size stays within its limits *)

Lemma handle_panel_size (os : OS) (e : Event) (w : Widget) :
  (forall bs p g, e <> MouseMove bs p g) ->
  panel_width (handle os e w) = panel_width w /\
  panel_height (handle os e w) = panel_height w.
Proof.
  intros Hne.
  destruct e; unfold handle;
    try (unfold_methods; destruct w; simpl in *; brute; split; brute; fail).
  exfalso. exact (Hne _ _ _ eq_refl).
Qed.

Lemma perform_resize_keeps_limits (p : QPoint) (w : Widget) :
  panel_within_limits w -> panel_within_limits (perform_resize p w).
Proof.
  intros H. destruct (resizing w) eqn:Hr.
  - apply perform_resize_panel. exact Hr.
  - rewrite perform_resize_idle by exact Hr. exact H.
Qed.

Lemma mouseMoveEvent_keeps_limits bs p g (w : Widget) :
  panel_within_limits w -> panel_within_limits (mouseMoveEvent bs p g w).
Proof.
  intros H. unfold mouseMoveEvent.
  destruct (only_left bs); [ | exact H].
  destruct (resizing w) eqn:Hr.
  - apply perform_resize_panel. exact Hr.
  - unfold panel_within_limits in *. unfold_methods.
    destruct w; simpl in *; brute.
Qed.

Lemma handle_keeps_limits (os : OS) (e : Event) (w : Widget) :
  panel_within_limits w -> panel_within_limits (handle os e w).
Proof.
  intros H.
  destruct e;
    try (unfold panel_within_limits in *;
         match goal with
         | |- context [handle ?os ?e ?w] =>
             destruct (handle_panel_size os e w) as [-> ->];
             [ intros; discriminate | exact H ]
         end).
  apply mouseMoveEvent_keeps_limits. exact H.
Qed.

Lemma clamp_bounds (lo hi z : Z) (v : jvalue) :
  lo <= hi -> clamp lo v hi = Some z -> lo <= z <= hi.
Proof.
  unfold clamp. intros Hle. destruct (as_int v); [ | discriminate].
  intros E. injection E as <-. lia.
Qed.

Lemma load_position_keeps_limits (w : Widget) :
  panel_within_limits w -> panel_within_limits (load_position w).
Proof.
  unfold panel_within_limits, load_position.
  intros H.
  destruct (position_file w) as [ | | position_data].
  1, 2: destruct (position_widget_tracked w) as (_ & _ & -> & -> & _); exact H.
  destruct (clamp min_panel_width _ max_panel_width) as [nw | ] eqn:Ew.
  2: { match goal with
       | |- context [position_widget ?v] =>
           destruct (position_widget_tracked v) as (_ & _ & -> & -> & _)
       end. exact H. }
  apply clamp_bounds in Ew; [ | unfold min_panel_width, max_panel_width; lia].
  destruct (clamp min_panel_height _ max_panel_height) as [nh | ] eqn:Eh.
  2: { match goal with
       | |- context [position_widget ?v] =>
           destruct (position_widget_tracked v) as (_ & _ & -> & -> & _)
       end. simpl. split; [exact Ew | apply H]. }
  apply clamp_bounds in Eh; [ | unfold min_panel_height, max_panel_height; lia].
  repeat match goal with
         | |- context [match ?o with _ => _ end] => destruct o
         end;
    try match goal with
        | |- context [position_widget ?v] =>
            destruct (position_widget_tracked v) as (_ & _ & -> & -> & _)
        end;
    simpl; split; assumption.
Qed.

Lemma init_within_limits screen_w screen_h file os :
  panel_within_limits (init screen_w screen_h file os).
Proof.
  unfold init.
  assert (H : panel_within_limits
                (load_position (set_collapsed_state (blank screen_w screen_h file)))).
  { apply load_position_keeps_limits. unfold panel_within_limits.
    destruct (set_collapsed_state_tracked (blank screen_w screen_h file))
      as (_ & _ & -> & -> & _).
    unfold min_panel_width, max_panel_width, min_panel_height, max_panel_height.
    simpl. lia. }
  unfold panel_within_limits in *.
  destruct (show_launch_animation_tracked os
              (load_position (set_collapsed_state (blank screen_w screen_h file))))
    as (_ & _ & -> & -> & _).
  exact H.
Qed.

(** *** Counters are read only while expanded *)

Lemma all_expanded_snoc (log : list bool) :
  all_expanded log -> all_expanded (log ++ [true]).
Proof.
  intros H. apply Forall_app. split; [exact H | repeat constructor].
Qed.

Ltac close_sampling :=
  subst; simpl in *;
  split; [congruence | try assumption; apply all_expanded_snoc; assumption].

Lemma handle_sampling_inv (os : OS) (e : Event) (w : Widget) :
  sampling_inv w -> sampling_inv (handle os e w).
Proof.
  unfold sampling_inv. intros [Ht Hl].
  destruct e; unfold handle;
    try (unfold_methods; destruct w; simpl in *; brute; close_sampling; fail).
  unfold mouseMoveEvent.
  destruct (only_left buttons); [ | split; assumption].
  destruct (resizing w) eqn:Hr.
  - destruct (perform_resize_flags globalPos w) as (_ & _ & -> & -> & ->).
    split; assumption.
  - unfold_methods; destruct w; simpl in *; brute; close_sampling.
Qed.

Lemma init_sampling_inv screen_w screen_h file os :
  sampling_inv (init screen_w screen_h file os).
Proof.
  unfold sampling_inv, init.
  destruct (show_launch_animation_tracked os
              (load_position (set_collapsed_state (blank screen_w screen_h file))))
    as (_ & _ & _ & _ & -> & -> & Hlog).
  split; [reflexivity | ].
  destruct (load_position_tracked (set_collapsed_state (blank screen_w screen_h file)))
    as (_ & _ & _ & _ & Hl).
  destruct (set_collapsed_state_tracked (blank screen_w screen_h file))
    as (_ & _ & _ & _ & _ & _ & Hc).
  destruct Hlog as [E | E]; rewrite E, Hl, Hc; simpl; repeat constructor.
Qed.

(** *** One gesture: press, moves, release *)

Lemma get_resize_cursor_zone_frame (p : QPoint) (w w' : Widget) :
  is_expanded w' = is_expanded w -> window w' = window w ->
  get_resize_cursor_zone p w' = get_resize_cursor_zone p w.
Proof.
  intros He Hw. unfold get_resize_cursor_zone, rect. rewrite He, Hw. reflexivity.
Qed.

(** A left press clears [dragging], records the press position and sets
    [resizing] exactly when it lands in a resize zone. *)
Lemma mousePressEvent_left (p g : QPoint) (w : Widget) :
  let w' := mousePressEvent LeftButton p g w in
  dragging w' = false /\
  resizing w' = in_resize_zone p w /\
  mouse_press_position w' = g /\
  is_expanded w' = is_expanded w /\
  hover_expand_enabled w' = hover_expand_enabled w.
Proof.
  unfold mousePressEvent, in_resize_zone. simpl.
  rewrite (get_resize_cursor_zone_frame p w) by reflexivity.
  destruct (is_expanded w) eqn:He.
  - destruct (get_resize_cursor_zone p w) eqn:Hz.
    + unfold start_resize, stop_auto_collapse_timer. simpl. auto.
    + unfold reset_auto_collapse_timer. simpl. rewrite He. simpl. auto.
  - simpl. unfold get_resize_cursor_zone. rewrite He. simpl. auto.
Qed.

(** While no resize is in progress, a move with the left button held
    starts a drag as soon as the pointer is beyond the threshold. *)
Lemma mouseMoveEvent_idle (p g : QPoint) (w : Widget) :
  resizing w = false ->
  let w' := mouseMoveEvent left_held p g w in
  resizing w' = false /\
  dragging w' = dragging w || beyond_threshold (mouse_press_position w) g /\
  mouse_press_position w' = mouse_press_position w /\
  is_expanded w' = is_expanded w /\
  hover_expand_enabled w' = hover_expand_enabled w.
Proof.
  intros Hr. unfold mouseMoveEvent, beyond_threshold. simpl. rewrite Hr. simpl.
  unfold stop_auto_collapse_timer, move.
  destruct (dragging w) eqn:Hd; simpl.
  - rewrite Hd. simpl. auto.
  - destruct (drag_threshold <? _) eqn:Hm; simpl; [ | rewrite Hd; simpl]; auto.
Qed.

Lemma mouseMoveEvent_resizing (bs : MouseButtons) (p g : QPoint) (w : Widget) :
  resizing w = true -> resizing (mouseMoveEvent bs p g w) = true.
Proof.
  intros Hr. unfold mouseMoveEvent. destruct (only_left bs); [ | exact Hr].
  rewrite Hr. destruct (perform_resize_flags g w) as (_ & -> & _). exact Hr.
Qed.

Lemma held_moves_resizing (moves : list (QPoint * QPoint)) :
  forall w, resizing w = true -> resizing (held_moves moves w) = true.
Proof.
  induction moves as [ | [p g] rest IH]; intros w Hr; simpl; [exact Hr | ].
  apply IH. apply mouseMoveEvent_resizing. exact Hr.
Qed.

Lemma held_moves_idle (moves : list (QPoint * QPoint)) :
  forall w, resizing w = false ->
    let w' := held_moves moves w in
    resizing w' = false /\
    dragging w' =
      dragging w
      || existsb (fun m => beyond_threshold (mouse_press_position w) (snd m)) moves /\
    is_expanded w' = is_expanded w /\
    hover_expand_enabled w' = hover_expand_enabled w.
Proof.
  induction moves as [ | [p g] rest IH]; intros w Hr; simpl.
  - rewrite orb_false_r. auto.
  - destruct (mouseMoveEvent_idle p g w Hr) as (Hr' & Hd & Hp & He & Hh).
    destruct (IH _ Hr') as (IHr & IHd & IHe & IHh).
    rewrite IHr, IHd, IHe, IHh, Hd, Hp, He, Hh, orb_assoc. auto.
Qed.

Lemma existsb_beyond (press : QPoint) (moves : list (QPoint * QPoint)) :
  existsb (fun m => beyond_threshold press (snd m)) moves = false <->
  Forall (fun m => manhattanLength (point_sub (snd m) press) <= drag_threshold)
         moves.
Proof.
  induction moves as [ | m rest IH]; simpl.
  - split; [constructor | reflexivity].
  - rewrite orb_false_iff, IH. unfold beyond_threshold. rewrite Z.ltb_ge.
    split.
    + intros [H1 H2]. constructor; assumption.
    + intros H. inversion H; subst. split; assumption.
Qed.

(** The gesture whose moves are all made with the left button alone: a
    left press, such moves and a left release are taken as a click
    exactly when the press hit no resize zone and no move was further
    than [drag_threshold] (Manhattan length) from the press position. A
    click collapses an expanded widget, expands a collapsed one when
    hover-expand is disabled, and changes nothing when hover-expand is
    enabled. Once a move is beyond the threshold the release snaps to
    the edge instead. *)
Lemma click_or_drag :
  forall (os : OS) (w0 : Widget) (p g : QPoint) (moves : list (QPoint * QPoint)),
    let wn := held_moves moves (mousePressEvent LeftButton p g w0) in
    let within m := manhattanLength (point_sub (snd m) g) <= drag_threshold in
    let released := mouseReleaseEvent os LeftButton wn in
    ((resizing wn = false /\ dragging wn = false) <->
     (in_resize_zone p w0 = false /\ Forall within moves)) /\
    (in_resize_zone p w0 = false -> Forall within moves ->
       (is_expanded w0 = true -> released = collapse_widget wn) /\
       (is_expanded w0 = false -> hover_expand_enabled w0 = false ->
          released = expand_widget os wn) /\
       (is_expanded w0 = false -> hover_expand_enabled w0 = true ->
          released = wn)) /\
    (in_resize_zone p w0 = false -> Exists (fun m => ~ within m) moves ->
       dragging wn = true /\
       released = set_dragging false (snap_to_edge wn)).
Proof.
  intros os w0 p g moves wn within released.
  destruct (mousePressEvent_left p g w0) as (Hd & Hr & Hp & He & Hh).
  assert (Hclick : in_resize_zone p w0 = false ->
            resizing wn = false /\
            dragging wn = existsb (fun m => beyond_threshold g (snd m)) moves /\
            is_expanded wn = is_expanded w0 /\
            hover_expand_enabled wn = hover_expand_enabled w0).
  { intros Hz. rewrite Hz in Hr. subst wn.
    destruct (held_moves_idle moves _ Hr) as (Hr' & Hd' & He' & Hh').
    rewrite Hd, Hp in Hd'. rewrite Hr', Hd', He', Hh', He, Hh. auto. }
  assert (Hzone : in_resize_zone p w0 = true -> resizing wn = true).
  { intros Hz. rewrite Hz in Hr. apply held_moves_resizing. exact Hr. }
  clearbody wn. subst released.
  split; [ | split].
  - split.
    + intros [Hrn Hdn].
      destruct (in_resize_zone p w0) eqn:Hz.
      * rewrite (Hzone eq_refl) in Hrn. discriminate.
      * destruct (Hclick eq_refl) as (_ & Hd' & _).
        split; [reflexivity | ]. apply existsb_beyond. congruence.
    + intros [Hz Hall]. destruct (Hclick Hz) as (Hr' & Hd' & _).
      split; [exact Hr' | ]. rewrite Hd'. apply existsb_beyond. exact Hall.
  - intros Hz Hall. destruct (Hclick Hz) as (Hr' & Hd' & He' & Hh').
    apply existsb_beyond in Hall. rewrite Hall in Hd'.
    unfold mouseReleaseEvent. rewrite Hr', Hd', He', Hh'.
    split; [ | split].
    + intros E. rewrite E. reflexivity.
    + intros E E'. rewrite E, E'. reflexivity.
    + intros E E'. rewrite E, E'. reflexivity.
  - intros Hz Hex. destruct (Hclick Hz) as (Hr' & Hd' & _).
    assert (Hb : existsb (fun m => beyond_threshold g (snd m)) moves = true).
    { destruct (existsb _ moves) eqn:Eb; [reflexivity | ].
      apply existsb_beyond in Eb. exfalso.
      apply Exists_exists in Hex. destruct Hex as (m & Hin & Hm).
      apply Hm. rewrite Forall_forall in Eb. apply Eb. exact Hin. }
    rewrite Hb in Hd'. split; [exact Hd' | ].
    unfold mouseReleaseEvent. rewrite Hr', Hd'. reflexivity.
Qed.

Example shown_geometry : geometry (window shown) = mkRect 1630 520 280 160.
Proof. vm_compute. reflexivity. Qed.

Example dragged_geometry :
  geometry (window dragged) = mkRect (-50) (-40) 280 160 /\ dragging dragged = true.
Proof. vm_compute. split; reflexivity. Qed.

Example resized_panel :
  panel_width resized = 500 /\ resizing resized = true /\
  geometry (window resized) = mkRect 1410 520 280 160.
Proof. vm_compute. repeat split; reflexivity. Qed.

Example docked_geometry :
  geometry (window docked) = mkRect 1908 520 12 40 /\ is_expanded docked = false.
Proof. vm_compute. split; reflexivity. Qed.

(** A move made with another button held beside the left one is not
    followed: [mouseMoveEvent] acts only when [buttons()] is the left
    button alone. *)
Lemma mouseMoveEvent_buttons (bs : MouseButtons) (p g : QPoint) (w : Widget) :
  mouseMoveEvent bs p g w =
    if only_left bs then mouseMoveEvent left_held p g w else w.
Proof.
  unfold mouseMoveEvent. destruct (only_left bs); reflexivity.
Qed.

Lemma gesture_moves_left_only (moves : list (MouseButtons * (QPoint * QPoint))) :
  forall w, gesture_moves moves w = held_moves (left_only_moves moves) w.
Proof.
  unfold left_only_moves.
  induction moves as [ | [bs [p g]] rest IH]; intros w; [reflexivity | ].
  cbn [gesture_moves filter fst]. rewrite mouseMoveEvent_buttons, IH.
  destruct (only_left bs); reflexivity.
Qed.

Lemma left_only_moves_Forall (P : QPoint * QPoint -> Prop)
  (moves : list (MouseButtons * (QPoint * QPoint))) :
  Forall P (left_only_moves moves) <->
  Forall (fun m => only_left (fst m) = true -> P (snd m)) moves.
Proof.
  unfold left_only_moves.
  induction moves as [ | [bs pg] rest IH]; cbn [filter map fst].
  - split; constructor.
  - destruct (only_left bs) eqn:E; cbn [map].
    + split; intros H; inversion H; subst; constructor;
        try (apply IH; assumption); cbn [fst snd] in *; auto.
    + rewrite IH. split; intros H.
      * constructor; [cbn [fst]; congruence | exact H].
      * inversion H; subst. assumption.
Qed.

Lemma left_only_moves_Exists (P : QPoint * QPoint -> Prop)
  (moves : list (MouseButtons * (QPoint * QPoint))) :
  Exists (fun m => ~ (only_left (fst m) = true -> P (snd m))) moves ->
  Exists (fun m => ~ P m) (left_only_moves moves).
Proof.
  unfold left_only_moves.
  induction moves as [ | [bs pg] rest IH]; intros H; inversion H; subst;
    cbn [filter map fst snd] in *.
  - destruct (only_left bs) eqn:E.
    + cbn [map snd]. apply Exists_cons_hd. intros HP.
      match goal with Hn : ~ _ |- _ => apply Hn end. intros _. exact HP.
    + exfalso. match goal with Hn : ~ _ |- _ => apply Hn end. discriminate.
  - destruct (only_left bs); [cbn [map]; apply Exists_cons_tl | ];
      apply IH; assumption.
Qed.

(** The claim without the condition on the buttons fails: the shown
    panel is pressed at (1730, 600), the pointer is taken 2240 pixels
    away with the right button held beside the left one, and the left
    release is still taken as a click, although the movement exceeded
    the threshold. *)
Lemma chord_move_is_still_click :
  let moves := [(mkButtons true true false,
                 (mkPoint (-1580) (-480), mkPoint 50 40))] in
  let wn := gesture_moves moves
              (mousePressEvent LeftButton (mkPoint 100 80) (mkPoint 1730 600)
                 shown) in
  ~ ((resizing wn = false /\ dragging wn = false) <->
     (in_resize_zone (mkPoint 100 80) shown = false /\
      Forall (fun m => manhattanLength (point_sub (snd (snd m)) (mkPoint 1730 600))
                       <= drag_threshold) moves)).
Proof.
  cbv zeta. intros [H _].
  assert (Hflags :
            resizing (gesture_moves
                        [(mkButtons true true false,
                          (mkPoint (-1580) (-480), mkPoint 50 40))]
                        (mousePressEvent LeftButton (mkPoint 100 80)
                           (mkPoint 1730 600) shown)) = false /\
            dragging (gesture_moves
                        [(mkButtons true true false,
                          (mkPoint (-1580) (-480), mkPoint 50 40))]
                        (mousePressEvent LeftButton (mkPoint 100 80)
                           (mkPoint 1730 600) shown)) = false).
  { split; vm_compute; reflexivity. }
  destruct (H Hflags) as [_ Hall].
  inversion Hall as [ | m rest Hfar _]; subst.
  vm_compute in Hfar. apply Hfar. reflexivity.
Qed.

(** C6, amended. A left press followed by moves and a left release is
    taken as a click exactly when the press hit no resize zone and no
    move made with the left button alone held was further than
    [drag_threshold] (Manhattan length) from the press position; moves
    made with another button held as well are not followed. A click
    collapses an expanded widget, expands a collapsed one when
    hover-expand is disabled, and changes nothing when hover-expand is
    enabled. Once a move with the left button alone is beyond the
    threshold the release snaps to the edge instead. *)
Theorem click_or_drag_by_buttons :
  forall (os : OS) (w0 : Widget) (p g : QPoint)
         (moves : list (MouseButtons * (QPoint * QPoint))),
    let wn := gesture_moves moves (mousePressEvent LeftButton p g w0) in
    let within m :=
      only_left (fst m) = true ->
      manhattanLength (point_sub (snd (snd m)) g) <= drag_threshold in
    let released := mouseReleaseEvent os LeftButton wn in
    ((resizing wn = false /\ dragging wn = false) <->
     (in_resize_zone p w0 = false /\ Forall within moves)) /\
    (in_resize_zone p w0 = false -> Forall within moves ->
       (is_expanded w0 = true -> released = collapse_widget wn) /\
       (is_expanded w0 = false -> hover_expand_enabled w0 = false ->
          released = expand_widget os wn) /\
       (is_expanded w0 = false -> hover_expand_enabled w0 = true ->
          released = wn)) /\
    (in_resize_zone p w0 = false -> Exists (fun m => ~ within m) moves ->
       dragging wn = true /\
       released = set_dragging false (snap_to_edge wn)).
Proof.
  intros os w0 p g moves. cbv zeta.
  rewrite gesture_moves_left_only.
  pose proof (click_or_drag os w0 p g (left_only_moves moves)) as H.
  cbv zeta in H. destruct H as (Hiff & Hclick & Hdrag).
  pose proof (left_only_moves_Forall
                (fun m => manhattanLength (point_sub (snd m) g) <= drag_threshold)
                moves) as HF.
  cbv beta in HF.
  split; [ | split].
  - rewrite Hiff, HF. reflexivity.
  - intros Hz Hall. apply Hclick; [exact Hz | apply HF; exact Hall].
  - intros Hz Hex. apply Hdrag; [exact Hz | ].
    apply (left_only_moves_Exists
             (fun m => manhattanLength (point_sub (snd m) g) <= drag_threshold)).
    exact Hex.
Qed.

(** The shown panel is pressed away from its border: released after a
    move with two buttons held it collapses; taken across the screen
    with the left button alone, the release snaps it to an edge. *)
Lemma click_or_drag_by_buttons_witness :
  mouseReleaseEvent os0 LeftButton
    (gesture_moves
       [(mkButtons true true false, (mkPoint (-1580) (-480), mkPoint 50 40))]
       (mousePressEvent LeftButton (mkPoint 100 80) (mkPoint 1730 600) shown))
  = collapse_widget
      (gesture_moves
         [(mkButtons true true false, (mkPoint (-1580) (-480), mkPoint 50 40))]
         (mousePressEvent LeftButton (mkPoint 100 80) (mkPoint 1730 600) shown))
  /\
  mouseReleaseEvent os0 LeftButton
    (gesture_moves [(left_held, (mkPoint (-1580) (-480), mkPoint 50 40))]
       (mousePressEvent LeftButton (mkPoint 100 80) (mkPoint 1730 600) shown))
  = set_dragging false
      (snap_to_edge
         (gesture_moves [(left_held, (mkPoint (-1580) (-480), mkPoint 50 40))]
            (mousePressEvent LeftButton (mkPoint 100 80) (mkPoint 1730 600) shown))).
Proof.
  assert (Hz : in_resize_zone (mkPoint 100 80) shown = false)
    by (vm_compute; reflexivity).
  assert (He : is_expanded shown = true) by (vm_compute; reflexivity).
  split.
  - pose proof (click_or_drag_by_buttons os0 shown (mkPoint 100 80)
                  (mkPoint 1730 600)
                  [(mkButtons true true false,
                    (mkPoint (-1580) (-480), mkPoint 50 40))]) as H.
    cbv zeta in H. destruct H as (_ & Hclick & _).
    assert (Hall : Forall
                     (fun m : MouseButtons * (QPoint * QPoint) =>
                        only_left (fst m) = true ->
                        manhattanLength (point_sub (snd (snd m)) (mkPoint 1730 600))
                        <= drag_threshold)
                     [(mkButtons true true false,
                       (mkPoint (-1580) (-480), mkPoint 50 40))]).
    { constructor; [ | constructor]. intros Hleft. discriminate Hleft. }
    destruct (Hclick Hz Hall) as (Hcollapse & _).
    exact (Hcollapse He).
  - pose proof (click_or_drag_by_buttons os0 shown (mkPoint 100 80)
                  (mkPoint 1730 600)
                  [(left_held, (mkPoint (-1580) (-480), mkPoint 50 40))]) as H.
    cbv zeta in H. destruct H as (_ & _ & Hdrag).
    assert (Hfar : Exists
                     (fun m : MouseButtons * (QPoint * QPoint) =>
                        ~ (only_left (fst m) = true ->
                           manhattanLength
                             (point_sub (snd (snd m)) (mkPoint 1730 600))
                           <= drag_threshold))
                     [(left_held, (mkPoint (-1580) (-480), mkPoint 50 40))]).
    { constructor. intros Hw. specialize (Hw eq_refl).
      vm_compute in Hw. apply Hw. reflexivity. }
    destruct (Hdrag Hz Hfar) as (_ & Hsnap).
    exact Hsnap.
Defined.

(** *** Edge snapping *)

(** C2. A left release that ends a drag sets [is_on_right] exactly when
    the horizontal centre, [x] plus half the current width (integer
    half), is strictly greater than [screen_width // 2], and starts the
    animation towards x = screen_width - panel_width - 10 (expanded,
    right), 10 (expanded, left), screen_width - widget_width (collapsed,
    right) or 0 (collapsed, left). *)
Theorem drag_release_snaps :
  forall (os : OS) (w : Widget),
    dragging w = true -> resizing w = false ->
    let w' := mouseReleaseEvent os LeftButton w in
    (is_on_right w' = true <->
       screen_width w / 2 < x w + current_width w / 2) /\
    dragging w' = false /\
    exists target,
      animation w' = Some (geometry (window w), target) /\
      rx target =
        match is_expanded w, is_on_right w' with
        | true, true => screen_width w - panel_width w - 10
        | true, false => 10
        | false, true => screen_width w - widget_width
        | false, false => 0
        end.
Proof.
  intros os w Hd Hr. unfold mouseReleaseEvent. rewrite Hr, Hd.
  unfold snap_to_edge, animate_to_edge, edge_rect, current_width, x, pos. simpl.
  split; [ | split; [reflexivity | ]].
  - destruct (is_expanded w); apply Z.ltb_lt.
  - eexists. split; [reflexivity | ]. simpl.
    destruct (is_expanded w);
      match goal with |- context [?a <? ?b] => destruct (a <? b) end;
      reflexivity.
Qed.

(** The dragged panel is released with its centre at x = 90, left of the
    middle of the screen: it goes to the left edge, x = 10. *)
Lemma drag_release_snaps_witness :
  is_on_right (mouseReleaseEvent os0 LeftButton dragged) = false /\
  exists target,
    animation (mouseReleaseEvent os0 LeftButton dragged)
      = Some (geometry (window dragged), target) /\
    rx target = 10.
Proof.
  destruct (drag_release_snaps os0 dragged) as (Hside & _ & target & Ha & Hx).
  - vm_compute. reflexivity.
  - vm_compute. reflexivity.
  - assert (Hr : is_on_right (mouseReleaseEvent os0 LeftButton dragged) = false).
    { destruct (is_on_right (mouseReleaseEvent os0 LeftButton dragged)) eqn:E;
        [ | reflexivity].
      exfalso. apply proj1 in Hside. specialize (Hside eq_refl).
      vm_compute in Hside. discriminate Hside. }
    split; [exact Hr | ].
    exists target. split; [exact Ha | ].
    rewrite Hr in Hx. exact Hx.
Defined.

(** *** Position and the screen *)

(** The claim that the position stays on the screen after every drag
    movement fails: the panel grabbed at (100, 80) follows the pointer to
    (50, 40) and its top-left corner leaves the screen. *)
Lemma drag_leaves_screen :
  reachable dragged /\
  dragging dragged = true /\
  ~ on_screen (screen_width dragged) (screen_height dragged)
              (geometry (window dragged)).
Proof.
  split; [ | split].
  - unfold dragged, shown, launched.
    apply reachable_run. apply reachable_handle. apply reachable_init.
  - vm_compute. reflexivity.
  - intros [[Hx _] _]. vm_compute in Hx. apply Hx. reflexivity.
Qed.

Lemma position_widget_on_screen (w : Widget) :
  panel_within_limits w ->
  510 <= screen_width w -> 400 <= screen_height w ->
  let w' := position_widget w in
  0 <= x w' <= screen_width w' - current_width w' /\
  0 <= y w' <= screen_height w' - current_height w'.
Proof.
  unfold panel_within_limits, min_panel_width, max_panel_width,
    min_panel_height, max_panel_height.
  intros Hp Hw Hh.
  unfold position_widget, move, current_width, current_height, x, y,
    widget_width, widget_height.
  destruct (is_expanded w) eqn:He; simpl; rewrite He;
    destruct (is_on_right w); simpl; lia.
Qed.

(** C7, amended. On a screen at least 510 wide and 400 high, with the
    panel size within its limits, the end rectangle of the edge
    animation (whether started by [animate_to_edge] or by
    [snap_to_edge]) lies on the screen, and the position that
    [load_position] sets satisfies 0 <= x <= screen_width - width and
    0 <= y <= screen_height - height for the width and height the
    controller takes as current. *)
Theorem position_on_screen :
  forall w : Widget,
    panel_within_limits w ->
    510 <= screen_width w -> 400 <= screen_height w ->
    (forall start target,
       animation (animate_to_edge w) = Some (start, target) ->
       on_screen (screen_width w) (screen_height w) target) /\
    (forall start target,
       animation (snap_to_edge w) = Some (start, target) ->
       on_screen (screen_width w) (screen_height w) target) /\
    (let w' := load_position w in
     0 <= x w' <= screen_width w' - current_width w' /\
     0 <= y w' <= screen_height w' - current_height w').
Proof.
  intros w Hp Hw Hh.
  pose proof Hp as Hp'.
  unfold panel_within_limits, min_panel_width, max_panel_width,
    min_panel_height, max_panel_height in Hp'.
  split; [ | split].
  - intros start target E. unfold animate_to_edge in E. simpl in E.
    injection E as _ <-.
    unfold on_screen, edge_rect, widget_width, widget_height. simpl.
    destruct (is_expanded w), (is_on_right w); simpl; lia.
  - intros start target E. unfold snap_to_edge, animate_to_edge in E.
    simpl in E. injection E as _ <-.
    unfold on_screen, edge_rect, widget_width, widget_height. simpl.
    destruct (is_expanded w);
      match goal with |- context [?a <? ?b] => destruct (a <? b) end;
      simpl; lia.
  - unfold load_position.
    destruct (position_file w) as [ | | position_data].
    1, 2: apply position_widget_on_screen; assumption.
    destruct (clamp min_panel_width _ max_panel_width) as [nw | ] eqn:Ew.
    2: { apply position_widget_on_screen; assumption. }
    apply clamp_bounds in Ew; [ | unfold min_panel_width, max_panel_width; lia].
    destruct (clamp min_panel_height _ max_panel_height) as [nh | ] eqn:Eh.
    2: { apply position_widget_on_screen; simpl; try assumption.
         split; [exact Ew | apply Hp]. }
    apply clamp_bounds in Eh; [ | unfold min_panel_height, max_panel_height; lia].
    unfold min_panel_width, max_panel_width, min_panel_height,
      max_panel_height in Ew, Eh.
    destruct (clamp 0 _ _) as [nx | ] eqn:Ex.
    2: { apply position_widget_on_screen; simpl; try assumption.
         split; assumption. }
    destruct (clamp 0 (get_default position_data "y" _) _) as [ny | ] eqn:Ey.
    2: { apply position_widget_on_screen; simpl; try assumption.
         split; assumption. }
    simpl in Ex, Ey.
    unfold move, current_width, current_height, x, y. simpl.
    unfold widget_width, widget_height in *.
    destruct (is_expanded w);
      apply clamp_bounds in Ex; try lia;
      apply clamp_bounds in Ey; try lia.
Qed.

(** The docked widget: collapsing again targets (1908, 520, 12, 40). *)
Lemma position_on_screen_witness :
  on_screen (screen_width docked) (screen_height docked) (edge_rect docked) /\
  0 <= x (load_position docked)
    <= screen_width (load_position docked) - current_width (load_position docked).
Proof.
  assert (Hp : panel_within_limits docked).
  { vm_compute. repeat split; intros H; discriminate H. }
  assert (Hw : 510 <= screen_width docked).
  { vm_compute. intros H; discriminate H. }
  assert (Hh : 400 <= screen_height docked).
  { vm_compute. intros H; discriminate H. }
  destruct (position_on_screen docked Hp Hw Hh) as (Hanim & _ & Hload).
  split.
  - apply (Hanim (geometry (window docked))).
    unfold animate_to_edge. reflexivity.
  - cbv zeta in Hload. exact (proj1 Hload).
Defined.

(** *** The claims on reachable states *)

(** C10. [dragging] and [resizing] are never both set in a reachable
    state. A left press clears [dragging] and sets [resizing] exactly
    when it lands in a resize zone; a move sets [dragging] only while
    [resizing] is clear; a left release leaves both clear. *)
Theorem dragging_resizing_exclusive :
  (forall w, reachable w -> ~ (dragging w = true /\ resizing w = true)) /\
  (forall p g w,
     dragging (mousePressEvent LeftButton p g w) = false /\
     resizing (mousePressEvent LeftButton p g w) = in_resize_zone p w) /\
  (forall bs p g w,
     dragging w = false -> dragging (mouseMoveEvent bs p g w) = true ->
     resizing w = false /\ resizing (mouseMoveEvent bs p g w) = false) /\
  (forall os w,
     ~ (dragging w = true /\ resizing w = true) ->
     dragging (mouseReleaseEvent os LeftButton w) = false /\
     resizing (mouseReleaseEvent os LeftButton w) = false).
Proof.
  split; [ | split; [ | split]].
  - intros w Hr.
    assert (H : flags_exclusive w).
    { revert w Hr. apply (reachable_ind_inv flags_exclusive).
      - intros. apply init_flags_exclusive.
      - intros. apply handle_flags_exclusive. assumption. }
    intros [Hd Hz].
    unfold flags_exclusive in H. rewrite Hd, Hz in H. discriminate H.
  - intros p g w. destruct (mousePressEvent_left p g w) as (Hd & Hr & _).
    split; assumption.
  - intros bs p g w Hd Hd'.
    destruct (resizing w) eqn:Hr.
    + exfalso. unfold mouseMoveEvent in Hd'.
      destruct (only_left bs); [ | congruence].
      rewrite Hr in Hd'.
      destruct (perform_resize_flags g w) as (E & _). congruence.
    + split; [reflexivity | ].
      unfold mouseMoveEvent. destruct (only_left bs); [ | exact Hr].
      rewrite Hr. unfold_methods. destruct w; simpl in *; brute.
  - intros os w Hex.
    assert (H : flags_exclusive w).
    { unfold flags_exclusive. destruct (dragging w), (resizing w); try reflexivity.
      exfalso. apply Hex. split; reflexivity. }
    clear Hex. unfold flags_exclusive in H.
    unfold_methods. destruct w; simpl in *; brute; split; brute.
Qed.

Lemma dragging_resizing_exclusive_witness :
  ~ (dragging resized = true /\ resizing resized = true) /\
  dragging (mouseReleaseEvent os0 LeftButton resized) = false /\
  resizing (mouseReleaseEvent os0 LeftButton resized) = false.
Proof.
  destruct dragging_resizing_exclusive as (Hreach & _ & _ & Hrel).
  assert (Hr : reachable resized).
  { unfold resized, shown, launched.
    apply reachable_run. apply reachable_handle. apply reachable_init. }
  split.
  - exact (Hreach resized Hr).
  - exact (Hrel os0 resized (Hreach resized Hr)).
Defined.

(** C4. The panel size is within its limits after every
    [perform_resize] of a resize in progress, is kept within them by
    [perform_resize] and by [load_position] whatever the file holds, and
    is within them in every reachable state. *)
Theorem panel_size_within_limits :
  (forall p w, resizing w = true -> panel_within_limits (perform_resize p w)) /\
  (forall p w, panel_within_limits w -> panel_within_limits (perform_resize p w)) /\
  (forall w, panel_within_limits w -> panel_within_limits (load_position w)) /\
  (forall w, reachable w -> panel_within_limits w).
Proof.
  split; [ | split; [ | split]].
  - intros p w. apply perform_resize_panel.
  - intros p w. apply perform_resize_keeps_limits.
  - intros w. apply load_position_keeps_limits.
  - apply reachable_ind_inv.
    + intros. apply init_within_limits.
    + intros. apply handle_keeps_limits. assumption.
Qed.

(** The left edge pulled 632 pixels outwards: the width stops at 500. *)
Lemma panel_size_within_limits_witness :
  panel_within_limits (perform_resize (mkPoint 1000 600) resized) /\
  panel_within_limits resized.
Proof.
  destruct panel_size_within_limits as (Hresize & _ & _ & Hreach).
  split.
  - apply Hresize. vm_compute. reflexivity.
  - apply Hreach. unfold resized, shown, launched.
    apply reachable_run. apply reachable_handle. apply reachable_init.
Defined.

(** C3. [set_expanded_state] starts the update timer and
    [set_collapsed_state] stops it; [update_network_speeds] changes
    nothing when the widget is collapsed or has no sampler; in every
    reachable state the update timer is active exactly when the widget is
    expanded and every read of the OS counters so far was made with
    [is_expanded] set. *)
Theorem sampling_only_while_expanded :
  (forall os w, update_timer (set_expanded_state os w) = true) /\
  (forall w, update_timer (set_collapsed_state w) = false) /\
  (forall os w,
     is_expanded w = false \/ network_monitor w = None ->
     update_network_speeds os w = w) /\
  (forall w, reachable w ->
     update_timer w = is_expanded w /\ all_expanded (io_log w)).
Proof.
  split; [ | split; [ | split]].
  - intros os w. apply set_expanded_state_tracked.
  - intros w. apply set_collapsed_state_tracked.
  - intros os w [He | Hm]; unfold update_network_speeds.
    + rewrite He. reflexivity.
    + rewrite Hm. destruct (negb (is_expanded w)); reflexivity.
  - apply (reachable_ind_inv sampling_inv).
    + intros. apply init_sampling_inv.
    + intros. apply handle_sampling_inv. assumption.
Qed.

(** A timer expiry delivered to the docked (collapsed) widget reads
    nothing and leaves the labels as they are. *)
Lemma sampling_only_while_expanded_witness :
  update_network_speeds os0 docked = docked /\
  update_timer docked = is_expanded docked /\
  all_expanded (io_log docked).
Proof.
  destruct sampling_only_while_expanded as (_ & _ & Hidle & Hreach).
  split.
  - apply Hidle. left. vm_compute. reflexivity.
  - apply Hreach. unfold docked, shown, launched.
    apply reachable_run. apply reachable_handle. apply reachable_init.
Defined.

(** C8. Neither a call of [update_network_speeds] nor an update of the
    sampler held by the widget changes [is_expanded], [is_on_right], the
    position, the size, [dragging] or [resizing]. *)
Theorem sampler_keeps_widget_state :
  (forall os w, widget_state (update_network_speeds os w) = widget_state w) /\
  (forall os m w,
     widget_state
       (set_network_monitor (Some (snd (get_network_speed os m))) w)
     = widget_state w) /\
  (forall os w,
     widget_state (set_network_monitor (Some (new_monitor os)) w)
     = widget_state w).
Proof.
  split; [ | split].
  - intros os w. unfold update_network_speeds.
    destruct (negb (is_expanded w)); [reflexivity | ].
    destruct (network_monitor w) as [m | ]; [ | reflexivity].
    destruct (get_network_speed os m) as [[up down] m']. reflexivity.
  - reflexivity.
  - reflexivity.
Qed.

(* ================================================================= *)
(** * Further properties of the controller *)

(** *** What a resize step writes *)

(** [perform_resize] writes the panel size and the window, nothing else. *)
Lemma perform_resize_shape (p : QPoint) (w : Widget) :
  exists nx ny nw nh,
    perform_resize p w =
      (if resizing w
       then setGeometry nx ny nw nh (set_panel_height nh (set_panel_width nw w))
       else w).
Proof.
  unfold perform_resize. destruct (resizing w); simpl.
  - destruct (resize_request p w) as [[[rw rh] rx0] ry0].
    eexists _, _, _, _. reflexivity.
  - exists 0, 0, 0, 0. reflexivity.
Qed.

(** *** The window of a reachable widget has a fixed size *)

Lemma window_fixed_setFixedSize (nw nh : Z) (win : Window) :
  window_fixed (Qt.setFixedSize nw nh win).
Proof. unfold window_fixed, Qt.setFixedSize. simpl. split; reflexivity. Qed.

Lemma window_fixed_move (nx ny : Z) (win : Window) :
  window_fixed win -> window_fixed (Qt.move nx ny win).
Proof. unfold window_fixed, Qt.move, rect_size. simpl. auto. Qed.

Lemma window_fixed_setGeometry (nx ny nw nh : Z) (win : Window) :
  window_fixed win -> window_fixed (Qt.setGeometry nx ny nw nh win).
Proof.
  unfold window_fixed, Qt.setGeometry, rect_size, bound_width, bound_height.
  simpl. intros [Hm Hs]. split; [exact Hm | ].
  rewrite <- Hm. destruct (minimumSize win) as [mw mh]. simpl.
  f_equal; lia.
Qed.

Ltac window_steps :=
  repeat first
    [ assumption
    | apply window_fixed_setFixedSize
    | apply window_fixed_move
    | apply window_fixed_setGeometry ].

Lemma handle_window_fixed (os : OS) (e : Event) (w : Widget) :
  window_fixed (window w) -> window_fixed (window (handle os e w)).
Proof.
  intros H.
  destruct e; unfold handle;
    try (unfold_methods; destruct w; simpl in *; brute; window_steps; fail).
  unfold mouseMoveEvent.
  destruct (only_left buttons); [ | exact H].
  destruct (resizing w) eqn:Hr.
  - destruct (perform_resize_shape globalPos w) as (nx & ny & nw & nh & ->).
    rewrite Hr. unfold setGeometry. simpl. window_steps.
  - unfold_methods; destruct w; simpl in *; brute; window_steps.
Qed.

Lemma show_launch_animation_window_fixed (os : OS) (w : Widget) :
  window_fixed (window (show_launch_animation os w)).
Proof.
  unfold show_launch_animation, set_expanded_state, move, setFixedSize.
  destruct w; simpl.
  destruct network_monitor0; simpl; window_steps.
Qed.

Lemma init_window_fixed screen_w screen_h file os :
  window_fixed (window (init screen_w screen_h file os)).
Proof. unfold init. apply show_launch_animation_window_fixed. Qed.

(** X1. In every reachable state the window is of fixed size:
    Qt's minimum and maximum size agree with the current size, so that
    only [setFixedSize] ever changes the size of the window. *)
Theorem reachable_window_fixed :
  forall w, reachable w -> window_fixed (window w).
Proof.
  apply (reachable_ind_inv (fun w => window_fixed (window w))).
  - intros. apply init_window_fixed.
  - intros. apply handle_window_fixed. assumption.
Qed.

Lemma reachable_window_fixed_witness : window_fixed (window resized).
Proof.
  apply reachable_window_fixed.
  unfold resized, shown, launched.
  apply reachable_run. apply reachable_handle. apply reachable_init.
Defined.

(** *** Collapse timers and the sampler in reachable states *)

Lemma reachable_sampling_inv (w : Widget) :
  reachable w -> sampling_inv w.
Proof.
  revert w. apply (reachable_ind_inv sampling_inv).
  - intros. apply init_sampling_inv.
  - intros. apply handle_sampling_inv. assumption.
Qed.



Ltac close_timers :=
  simpl in *; subst; simpl in *;
  first [ split; congruence | congruence | discriminate
        | intros; split; congruence | intros; congruence ].

Lemma handle_collapse_timers_idle (os : OS) (e : Event) (w : Widget) :
  collapse_timers_idle w -> collapse_timers_idle (handle os e w).
Proof.
  unfold collapse_timers_idle. intros H.
  destruct e; unfold handle;
    try (unfold_methods; destruct w; simpl in *;
         destruct is_expanded0;
         [ | destruct (H eq_refl) as [-> ->] ];
         brute; intros; try split; congruence).
  unfold mouseMoveEvent.
  destruct (only_left buttons); [ | exact H].
  destruct (resizing w) eqn:Hr.
  - destruct (perform_resize_shape globalPos w) as (nx & ny & nw & nh & ->).
    rewrite Hr. simpl. exact H.
  - unfold_methods; destruct w; simpl in *;
      destruct is_expanded0;
      [ | destruct (H eq_refl) as [-> ->] ];
      brute; intros; try split; congruence.
Qed.

(** X2. In every reachable state a collapsed widget has neither
    the auto-collapse timer nor the hover-delay timer running. *)
Theorem reachable_collapse_timers_idle :
  forall w, reachable w -> is_expanded w = false ->
    auto_collapse_timer w = false /\ hover_delay_timer w = false.
Proof.
  apply (reachable_ind_inv collapse_timers_idle).
  - intros sw sh file os He. exfalso. unfold init in He.
    destruct (show_launch_animation_tracked os
                (load_position (set_collapsed_state (blank sw sh file))))
      as (_ & _ & _ & _ & E & _).
    congruence.
  - intros. apply handle_collapse_timers_idle. assumption.
Qed.

Lemma reachable_collapse_timers_idle_witness :
  auto_collapse_timer docked = false /\ hover_delay_timer docked = false.
Proof.
  apply reachable_collapse_timers_idle.
  - unfold docked, shown, launched.
    apply reachable_run. apply reachable_handle. apply reachable_init.
  - vm_compute. reflexivity.
Defined.

Lemma handle_sampler_ready (os : OS) (e : Event) (w : Widget) :
  sampler_ready w -> sampler_ready (handle os e w).
Proof.
  unfold sampler_ready. intros H.
  destruct e; unfold handle;
    try (unfold_methods; destruct w; simpl in *; brute;
         intros; first [ discriminate | apply H; congruence ]; fail).
  unfold mouseMoveEvent.
  destruct (only_left buttons); [ | exact H].
  destruct (resizing w) eqn:Hr.
  - destruct (perform_resize_shape globalPos w) as (nx & ny & nw & nh & ->).
    rewrite Hr. simpl. exact H.
  - unfold_methods; destruct w; simpl in *; brute;
      intros; first [ discriminate | apply H; congruence ].
Qed.

Lemma init_sampler_ready screen_w screen_h file os :
  sampler_ready (init screen_w screen_h file os).
Proof.
  unfold sampler_ready, init. intros _.
  generalize (load_position (set_collapsed_state (blank screen_w screen_h file))).
  intros w. unfold show_launch_animation, set_expanded_state, move, setFixedSize.
  destruct w; simpl. destruct network_monitor0; simpl; discriminate.
Qed.

Lemma reachable_sampler_ready (w : Widget) :
  reachable w -> sampler_ready w.
Proof.
  revert w. apply (reachable_ind_inv sampler_ready).
  - intros. apply init_sampler_ready.
  - intros. apply handle_sampler_ready. assumption.
Qed.

(** X3. In a reachable expanded state an expiry of the update timer
    reads the OS counters exactly once, stores the sampler returned by
    [get_network_speed] and shows the two formatted speeds. *)
Theorem update_tick_samples :
  forall (os : OS) (w : Widget),
    reachable w -> is_expanded w = true ->
    exists m,
      network_monitor w = Some m /\
      let w' := handle os UpdateTimeout w in
      io_log w' = io_log w ++ [true] /\
      network_monitor w' = Some (snd (get_network_speed os m)) /\
      upload_speed_label w' =
        format_speed (fst (fst (get_network_speed os m))) /\
      download_speed_label w' =
        format_speed (snd (fst (get_network_speed os m))).
Proof.
  intros os w Hr He.
  pose proof (reachable_sampler_ready w Hr He) as Hm.
  destruct (reachable_sampling_inv w Hr) as [Ht _].
  destruct (network_monitor w) as [m | ] eqn:Em; [ | congruence].
  exists m. split; [reflexivity | ].
  unfold handle. rewrite Ht, He. unfold update_network_speeds.
  rewrite He, Em. simpl.
  destruct (get_network_speed os m) as [[up down] m']. simpl.
  rewrite ?He. auto.
Qed.

(** *** Resize zones and resize steps *)

(** X4. A point of an expanded widget is in a resize zone exactly
    when it is within [resize_threshold] of a border; the cursor is
    diagonal in the corners, horizontal on the left and right bands and
    vertical on the top and bottom bands. A collapsed widget has no
    resize zone. *)
Theorem resize_zone_is_border_band :
  forall (p : QPoint) (w : Widget),
    let W := rwidth (geometry (window w)) in
    let H := rheight (geometry (window w)) in
    let near_x := px p <= resize_threshold \/ W - resize_threshold <= px p in
    let near_y := py p <= resize_threshold \/ H - resize_threshold <= py p in
    (in_resize_zone p w = true <->
       is_expanded w = true /\ (near_x \/ near_y)) /\
    (get_resize_cursor_zone p w = Some SizeHorCursor <->
       is_expanded w = true /\ near_x /\ ~ near_y) /\
    (get_resize_cursor_zone p w = Some SizeVerCursor <->
       is_expanded w = true /\ near_y /\ ~ near_x) /\
    ((get_resize_cursor_zone p w = Some SizeFDiagCursor \/
      get_resize_cursor_zone p w = Some SizeBDiagCursor) <->
       is_expanded w = true /\ near_x /\ near_y).
Proof.
  intros p w W H near_x near_y. subst W H near_x near_y.
  unfold in_resize_zone, get_resize_cursor_zone, rect, resize_threshold. simpl.
  destruct (is_expanded w); simpl.
  2: { repeat split; intros; try discriminate;
       repeat match goal with
              | Hc : _ /\ _ |- _ => destruct Hc
              | Hc : _ \/ _ |- _ => destruct Hc
              end; discriminate. }
  destruct (Z.leb_spec (px p) 8), (Z.leb_spec (py p) 8),
    (Z.leb_spec (rwidth (geometry (window w)) - 8) (px p)),
    (Z.leb_spec (rheight (geometry (window w)) - 8) (py p));
    simpl;
    repeat split; intros;
    repeat match goal with
           | Hc : _ /\ _ |- _ => destruct Hc
           end;
    try discriminate; try reflexivity; try lia;
    try (left; reflexivity); try (right; reflexivity);
    try (exfalso; intuition (discriminate || lia)).
Qed.

#[local] Arguments Z.max _ _ : simpl never.
#[local] Arguments Z.min _ _ : simpl never.

(** X5. A resize step that starts from a size within the limits
    moves at most one of the left and right edges and at most one of the
    top and bottom edges of the rectangle it asks for: along each axis
    either the origin stays where the resize started, or the far edge
    does. The rectangle asked for has the constrained panel size. *)
Theorem resize_keeps_opposite_edge :
  forall (p : QPoint) (w : Widget),
    resizing w = true ->
    min_panel_width <= width (resize_start_size w) <= max_panel_width ->
    min_panel_height <= height (resize_start_size w) <= max_panel_height ->
    let w' := perform_resize p w in
    let start := resize_start_geometry w in
    (x w' = rx start \/
     x w' + panel_width w' = rx start + width (resize_start_size w)) /\
    (y w' = ry start \/
     y w' + panel_height w' = ry start + height (resize_start_size w)).
Proof.
  intros p w Hr Hw Hh. unfold perform_resize. rewrite Hr. simpl.
  unfold resize_request, point_sub, min_panel_width, max_panel_width,
    min_panel_height, max_panel_height in *.
  destruct (resize_cursor_type w) as [[ | | | | | ] | ];
    repeat match goal with
           | |- context [if ?b then _ else _] => destruct b eqn:?
           end;
    simpl in *; unfold x, y; simpl;
    repeat match goal with
           | E : (_ && _)%bool = true |- _ => apply andb_prop in E; destruct E
           | E : (_ && _)%bool = false |- _ => apply andb_false_iff in E
           | E : _ \/ _ |- _ => destruct E
           | E : negb _ = true |- _ => apply negb_true_iff in E
           | E : negb _ = false |- _ => apply negb_false_iff in E
           | E : (_ =? _) = true |- _ => apply Z.eqb_eq in E
           | E : (_ =? _) = false |- _ => apply Z.eqb_neq in E
           end;
    lia.
Qed.

(** The left edge of the shown panel pulled outwards: the right edge of
    the rectangle asked for stays at 1630 + 280. *)
Lemma resize_keeps_opposite_edge_witness :
  (x (perform_resize (mkPoint 1000 600) resized) = rx (resize_start_geometry resized) \/
   x (perform_resize (mkPoint 1000 600) resized)
     + panel_width (perform_resize (mkPoint 1000 600) resized)
   = rx (resize_start_geometry resized) + width (resize_start_size resized)) /\
  (y (perform_resize (mkPoint 1000 600) resized) = ry (resize_start_geometry resized) \/
   y (perform_resize (mkPoint 1000 600) resized)
     + panel_height (perform_resize (mkPoint 1000 600) resized)
   = ry (resize_start_geometry resized) + height (resize_start_size resized)).
Proof.
  assert (Hr : resizing resized = true) by (vm_compute; reflexivity).
  assert (Hw : min_panel_width <= width (resize_start_size resized)
               <= max_panel_width).
  { vm_compute. split; intros H; discriminate H. }
  assert (Hh : min_panel_height <= height (resize_start_size resized)
               <= max_panel_height).
  { vm_compute. split; intros H; discriminate H. }
  pose proof (resize_keeps_opposite_edge (mkPoint 1000 600) resized Hr Hw Hh) as H.
  cbv zeta in H. exact H.
Defined.

(** X6. With a window of fixed size, what a resize step yields
    depends on where the pointer is and not on where it has been: a step
    to [p2] after a step to [p1] gives the state of a single step to [p2]. *)
Theorem resize_path_independent :
  forall (p1 p2 : QPoint) (w : Widget),
    window_fixed (window w) ->
    perform_resize p2 (perform_resize p1 w) = perform_resize p2 w.
Proof.
  intros p1 p2 w [Hm Hs].
  destruct (resizing w) eqn:Hr.
  2: { rewrite (perform_resize_idle p1 w Hr). reflexivity. }
  destruct (perform_resize_shape p1 w) as (nx & ny & nw & nh & E).
  rewrite Hr in E. rewrite E.
  assert (Hrect : rwidth (geometry (window
                    (setGeometry nx ny nw nh
                       (set_panel_height nh (set_panel_width nw w)))))
                  = rwidth (geometry (window w))).
  { unfold setGeometry, Qt.setGeometry, bound_width. simpl.
    rewrite <- Hm. unfold rect_size in Hs. rewrite <- Hs. simpl. lia. }
  unfold perform_resize. simpl. rewrite Hr.
  unfold resize_request, rect. rewrite Hrect. simpl.
  destruct (resize_cursor_type w) as [[ | | | | | ] | ];
    repeat match goal with
           | |- context [if ?b then _ else _] => destruct b
           end;
    reflexivity.
Qed.

Lemma resize_path_independent_witness :
  perform_resize (mkPoint 1400 600) (perform_resize (mkPoint 1000 600) resized)
  = perform_resize (mkPoint 1400 600) resized.
Proof.
  apply resize_path_independent.
  vm_compute. split; reflexivity.
Defined.

(** *** Docking, snapping and the persistence file *)

Lemma set_collapsed_state_frame (u : Widget) :
  window (set_collapsed_state u)
    = Qt.setFixedSize widget_width widget_height (window u) /\
  is_expanded (set_collapsed_state u) = false /\
  is_on_right (set_collapsed_state u) = is_on_right u /\
  screen_width (set_collapsed_state u) = screen_width u /\
  screen_height (set_collapsed_state u) = screen_height u.
Proof.
  unfold set_collapsed_state, setFixedSize.
  cbn [update_timer set_window set_is_expanded].
  destruct (update_timer u); repeat split.
Qed.

Lemma set_expanded_state_frame (os : OS) (u : Widget) :
  window (set_expanded_state os u)
    = Qt.setFixedSize (panel_width u) (panel_height u) (window u) /\
  is_expanded (set_expanded_state os u) = true /\
  is_on_right (set_expanded_state os u) = is_on_right u /\
  screen_width (set_expanded_state os u) = screen_width u /\
  screen_height (set_expanded_state os u) = screen_height u /\
  panel_width (set_expanded_state os u) = panel_width u /\
  panel_height (set_expanded_state os u) = panel_height u.
Proof.
  unfold set_expanded_state, setFixedSize.
  cbn [network_monitor set_window set_is_expanded panel_width panel_height window].
  destruct (network_monitor u); repeat split.
Qed.

(** The end of an animation that was started by [animate_to_edge]. *)
Lemma animation_end_state (v : Widget) :
  geometry (window (animation_finished (animate_to_edge v)))
    = mkRect (rx (edge_rect v)) (ry (edge_rect v))
             (bound_width (window v) (rwidth (edge_rect v)))
             (bound_height (window v) (rheight (edge_rect v))) /\
  is_expanded (animation_finished (animate_to_edge v)) = is_expanded v /\
  dict_get (match position_file (animation_finished (animate_to_edge v)) with
            | Object d => d
            | _ => []
            end) "x"
    = Some (JInt (x (animation_finished (animate_to_edge v)))).
Proof. repeat split. Qed.

(** X7. When the animation started by [collapse_widget] ends, the
    widget is a 12 by 40 strip flush with its edge of the screen, at the
    height it had, brought within the screen; when the one started by
    [expand_widget] ends, the panel has its size and sits 10 pixels from
    that edge. In both cases the file then records that position. *)
Theorem animation_end_docks :
  forall (os : OS) (w : Widget),
    (let w' := animation_finished (collapse_widget w) in
     is_expanded w' = false /\
     geometry (window w') =
       mkRect (if is_on_right w then screen_width w - widget_width else 0)
              (Z.max 0 (Z.min (y w) (screen_height w - widget_height)))
              widget_width widget_height /\
     dict_get (match position_file w' with Object d => d | _ => [] end) "x"
       = Some (JInt (x w'))) /\
    (panel_within_limits w ->
     let w' := animation_finished (expand_widget os w) in
     is_expanded w' = true /\
     geometry (window w') =
       mkRect (if is_on_right w then screen_width w - panel_width w - 10 else 10)
              (Z.max 0 (Z.min (y w) (screen_height w - panel_height w)))
              (panel_width w) (panel_height w) /\
     dict_get (match position_file w' with Object d => d | _ => [] end) "x"
       = Some (JInt (x w'))).
Proof.
  intros os w. split.
  - cbv zeta. unfold collapse_widget.
    match goal with
    | |- context [animate_to_edge (set_collapsed_state ?u0)] => set (u := u0)
    end.
    destruct (animation_end_state (set_collapsed_state u)) as (Hg & He & Hf).
    destruct (set_collapsed_state_frame u) as (Hwin & Hexp & Hside & Hsw & Hsh).
    rewrite Hg, He, Hf. unfold edge_rect. rewrite Hwin, Hexp, Hside, Hsw, Hsh.
    repeat split.
  - unfold panel_within_limits, min_panel_width, max_panel_width,
      min_panel_height, max_panel_height.
    intros [Hpw Hph]. cbv zeta. unfold expand_widget.
    match goal with
    | |- context [animate_to_edge (set_expanded_state os ?u0)] => set (u := u0)
    end.
    destruct (animation_end_state (set_expanded_state os u)) as (Hg & He & Hf).
    destruct (set_expanded_state_frame os u)
      as (Hwin & Hexp & Hside & Hsw & Hsh & Hw & Hh).
    rewrite Hg, He, Hf. unfold edge_rect.
    rewrite Hwin, Hexp, Hside, Hsw, Hsh, Hw, Hh.
    split; [reflexivity | split; [ | reflexivity]].
    subst u. unfold Qt.setFixedSize, bound_width, bound_height, y, QWIDGETSIZE_MAX.
    cbn [geometry minimumSize maximumSize rx ry rwidth rheight width height
         is_on_right screen_width screen_height panel_width panel_height window
         set_hide_timer].
    f_equal; lia.
Qed.

Lemma animation_end_docks_witness :
  geometry (window (animation_finished (expand_widget os0 docked)))
  = mkRect (if is_on_right docked
            then screen_width docked - panel_width docked - 10 else 10)
           (Z.max 0 (Z.min (y docked) (screen_height docked - panel_height docked)))
           (panel_width docked) (panel_height docked).
Proof.
  assert (Hp : panel_within_limits docked).
  { vm_compute. repeat split; intros H; discriminate H. }
  pose proof (proj2 (animation_end_docks os0 docked) Hp) as H.
  cbv zeta in H. exact (proj1 (proj2 H)).
Defined.

(** X8. What [save_position] writes, [load_position] of the
    next run reads back: the edge, the hover preference, the panel size
    (when within the limits) and the position (when a collapsed widget
    fits there on the screen) are those of the saved widget. The saved
    [is_expanded] is not read: the widget is restored collapsed. *)
Theorem save_load_round_trip :
  forall (w : Widget) (screen_w screen_h : Z),
    panel_within_limits w ->
    0 <= x w <= screen_w - widget_width ->
    0 <= y w <= screen_h - widget_height ->
    let w' := restore screen_w screen_h (position_file (save_position w)) in
    is_on_right w' = is_on_right w /\
    hover_expand_enabled w' = hover_expand_enabled w /\
    panel_width w' = panel_width w /\
    panel_height w' = panel_height w /\
    x w' = x w /\ y w' = y w /\
    is_expanded w' = false.
Proof.
  unfold panel_within_limits, min_panel_width, max_panel_width,
    min_panel_height, max_panel_height, widget_width, widget_height.
  intros w sw sh [Hw Hh] Hx Hy.
  unfold restore, save_position, set_collapsed_state, blank, load_position,
    setFixedSize, move, clamp, get_default, x, y,
    min_panel_width, max_panel_width, min_panel_height, max_panel_height,
    widget_width, widget_height in *.
  cbn.
  destruct (is_on_right w), (hover_expand_enabled w); cbn;
    repeat split; lia.
Qed.

Lemma save_load_round_trip_witness :
  panel_width (restore 1920 1080 (position_file (save_position docked)))
    = panel_width docked /\
  x (restore 1920 1080 (position_file (save_position docked))) = x docked.
Proof.
  assert (Hp : panel_within_limits docked).
  { vm_compute. repeat split; intros H; discriminate H. }
  assert (Hx : 0 <= x docked <= 1920 - widget_width).
  { vm_compute. split; intros H; discriminate H. }
  assert (Hy : 0 <= y docked <= 1080 - widget_height).
  { vm_compute. split; intros H; discriminate H. }
  pose proof (save_load_round_trip docked 1920 1080 Hp Hx Hy) as H.
  cbv zeta in H.
  exact (conj (proj1 (proj2 (proj2 H)))
              (proj1 (proj2 (proj2 (proj2 (proj2 H)))))).
Defined.

(** X9. A position file that is a JSON object with none of the
    six keys read by [load_position] restores the defaults: right edge,
    hover expansion on, the panel size unchanged, and the position
    (0, 0), which is the top-left corner of the screen whatever the edge. *)
Theorem load_position_missing_keys :
  forall (w : Widget) (d : dict),
    position_file w = Object d ->
    (forall key, In key ["is_on_right"; "hover_expand_enabled"; "width";
                         "height"; "x"; "y"]%string -> dict_get d key = None) ->
    panel_within_limits w ->
    let w' := load_position w in
    is_on_right w' = true /\ hover_expand_enabled w' = true /\
    panel_width w' = panel_width w /\ panel_height w' = panel_height w /\
    x w' = 0 /\ y w' = 0.
Proof.
  unfold panel_within_limits, min_panel_width, max_panel_width,
    min_panel_height, max_panel_height.
  intros w d Hf Hkeys [Hw Hh].
  unfold load_position, get_default. rewrite Hf.
  rewrite !Hkeys by (simpl; auto 10).
  unfold clamp, min_panel_width, max_panel_width, min_panel_height,
    max_panel_height, move, x, y. cbn.
  repeat split; try lia;
    destruct (is_expanded w); lia.
Qed.

Lemma load_position_missing_keys_witness :
  x (load_position (set_position_file (Object []) docked)) = 0 /\
  is_on_right (load_position (set_position_file (Object []) docked)) = true.
Proof.
  assert (Hp : panel_within_limits (set_position_file (Object []) docked)).
  { vm_compute. repeat split; intros H; discriminate H. }
  pose proof (load_position_missing_keys
                (set_position_file (Object []) docked) [] eq_refl
                (fun key _ => eq_refl) Hp) as H.
  cbv zeta in H.
  exact (conj (proj1 (proj2 (proj2 (proj2 (proj2 H)))))  (proj1 H)).
Defined.

Lemma collapse_widget_timers (w : Widget) :
  auto_collapse_timer (collapse_widget w) = false /\
  hover_delay_timer (collapse_widget w) = false /\
  pending_collapse (collapse_widget w) = pending_collapse w /\
  launch_timer (collapse_widget w) = launch_timer w.
Proof.
  unfold collapse_widget, set_collapsed_state, animate_to_edge,
    stop_auto_collapse_timer, setFixedSize.
  cbn [update_timer set_window set_is_expanded set_hover_delay_timer
       set_auto_collapse_timer].
  destruct (update_timer w); repeat split.
Qed.

(** X10. A press seen by the application filter outside an
    expanded widget arms one deferred collapse, and when that fires the
    widget is collapsed with the update and auto-collapse timers stopped;
    a press inside restarts the auto-collapse timer and arms nothing. *)
Theorem outside_press_collapses :
  forall (os : OS) (p : QPoint) (w : Widget),
    is_expanded w = true ->
    (contains (geometry (window w)) p = false ->
     let w1 := handle os (FilterPress p) w in
     let w2 := handle os DeferredCollapse w1 in
     pending_collapse w1 = S (pending_collapse w) /\
     is_expanded w1 = true /\
     is_expanded w2 = false /\ update_timer w2 = false /\
     auto_collapse_timer w2 = false /\
     pending_collapse w2 = pending_collapse w) /\
    (contains (geometry (window w)) p = true ->
     let w1 := handle os (FilterPress p) w in
     pending_collapse w1 = pending_collapse w /\
     is_expanded w1 = true /\ auto_collapse_timer w1 = true).
Proof.
  intros os p w He. split; intros Hc; cbv zeta;
    unfold handle, eventFilter_press, reset_auto_collapse_timer;
    rewrite He, Hc; cbn [negb pending_collapse set_pending_collapse].
  - match goal with
    | |- context [collapse_widget ?v] =>
        destruct (collapse_widget_flags v) as (_ & _ & -> & -> & _);
        destruct (collapse_widget_timers v) as (-> & _ & -> & _)
    end.
    cbn [pending_collapse set_pending_collapse is_expanded]. rewrite He.
    repeat split.
  - cbn [pending_collapse is_expanded auto_collapse_timer
         set_auto_collapse_timer]. rewrite He. repeat split.
Qed.

Lemma outside_press_collapses_witness :
  is_expanded (handle os0 DeferredCollapse
                 (handle os0 (FilterPress (mkPoint 5 5)) shown)) = false.
Proof.
  assert (He : is_expanded shown = true) by (vm_compute; reflexivity).
  assert (Hc : contains (geometry (window shown)) (mkPoint 5 5) = false)
    by (vm_compute; reflexivity).
  pose proof (proj1 (outside_press_collapses os0 (mkPoint 5 5) shown He) Hc) as H.
  cbv zeta in H. exact (proj1 (proj2 (proj2 H))).
Defined.

Lemma snap_to_edge_side (w : Widget) :
  snap_to_edge w =
    animate_to_edge
      (set_is_on_right (screen_width w / 2 <? x w + current_width w / 2) w).
Proof.
  unfold snap_to_edge, current_width, x, pos, topLeft.
  destruct (is_expanded w); reflexivity.
Qed.

(** X11. On a screen at least 521 pixels wide a widget resting at
    the x position of its edge stays on that edge when it is snapped
    again, and the snap animates to the x it already has. *)
Theorem snap_keeps_docked_side :
  forall w : Widget,
    panel_within_limits w ->
    521 <= screen_width w ->
    x w = rx (edge_rect w) ->
    is_on_right (snap_to_edge w) = is_on_right w /\
    exists start target,
      animation (snap_to_edge w) = Some (start, target) /\ rx target = x w.
Proof.
  unfold panel_within_limits, min_panel_width, max_panel_width,
    min_panel_height, max_panel_height.
  intros w [Hw Hh] Hs Hx.
  assert (Hside : (screen_width w / 2 <? x w + current_width w / 2)
                  = is_on_right w).
  { unfold edge_rect, current_width, widget_width, x in *. cbn [rx] in Hx.
    destruct (is_expanded w), (is_on_right w);
      first [ apply Z.ltb_lt | apply Z.ltb_ge ];
      Z.to_euclidean_division_equations; lia. }
  rewrite snap_to_edge_side, Hside.
  unfold animate_to_edge.
  cbn [is_on_right set_is_on_right set_animation animation].
  split; [reflexivity | ].
  eexists _, _. split; [reflexivity | ].
  rewrite Hx. unfold edge_rect. cbn [rx is_expanded is_on_right set_is_on_right
    screen_width panel_width].
  destruct (is_on_right w); reflexivity.
Qed.

Lemma snap_keeps_docked_side_witness :
  is_on_right (snap_to_edge docked) = is_on_right docked.
Proof.
  assert (Hp : panel_within_limits docked).
  { vm_compute. repeat split; intros H; discriminate H. }
  assert (Hs : 521 <= screen_width docked).
  { vm_compute. intros H; discriminate H. }
  assert (Hx : x docked = rx (edge_rect docked)) by (vm_compute; reflexivity).
  exact (proj1 (snap_keeps_docked_side docked Hp Hs Hx)).
Defined.

(** X12. Clicking the toggle button flips the hover preference and
    saves it: the file then holds the new value; a second click brings
    the preference back. No other state variable is touched. *)
Theorem toggle_hover_expand_flips :
  forall w : Widget,
    let w1 := toggle_hover_expand w in
    hover_expand_enabled w1 = negb (hover_expand_enabled w) /\
    dict_get (match position_file w1 with Object d => d | _ => [] end)
             "hover_expand_enabled"
      = Some (JBool (negb (hover_expand_enabled w))) /\
    hover_expand_enabled (toggle_hover_expand w1) = hover_expand_enabled w /\
    widget_state w1 = widget_state w.
Proof.
  intros w. cbv zeta. unfold toggle_hover_expand, save_position.
  cbn. rewrite negb_involutive. repeat split.
Qed.

(** *** Failed reads, committing a resize, launch *)

(** X14. When reading the counters raises during an update of an
    expanded widget, both labels show "0.0 Kbps" and the sampler keeps
    the counters and the time of the last successful sample. *)
Theorem failed_read_shows_zero :
  forall (os : OS) (w : Widget) (m : NetworkMonitor),
    is_expanded w = true ->
    network_monitor w = Some m ->
    os_counters os = None ->
    let w' := update_network_speeds os w in
    network_monitor w' = Some m /\
    upload_speed_label w' = "0.0 Kbps"%string /\
    download_speed_label w' = "0.0 Kbps"%string.
Proof.
  intros os w m He Hm Hc. cbv zeta.
  unfold update_network_speeds, get_network_speed. rewrite He, Hm, Hc.
  cbn [negb network_monitor set_network_monitor set_io_log
       set_upload_speed_label set_download_speed_label
       upload_speed_label download_speed_label].
  repeat split; vm_compute; reflexivity.
Qed.

Lemma failed_read_shows_zero_witness :
  upload_speed_label (update_network_speeds (mkOS 101.5 None) shown)
  = "0.0 Kbps"%string.
Proof.
  assert (He : is_expanded shown = true) by (vm_compute; reflexivity).
  assert (Hm : network_monitor shown = Some (new_monitor os_at_launch))
    by (vm_compute; reflexivity).
  pose proof (failed_read_shows_zero (mkOS 101.5 None) shown
                (new_monitor os_at_launch) He Hm eq_refl) as H.
  cbv zeta in H. exact (proj1 (proj2 H)).
Defined.

(** X15. Releasing the button at the end of a resize clears
    [resizing], gives the window the panel size as its fixed size and
    saves that size; the position and the edge are as they were. *)
Theorem finish_resize_commits :
  forall w : Widget,
    resizing w = true ->
    panel_within_limits w ->
    let w' := finish_resize w in
    resizing w' = false /\
    size w' = mkSize (panel_width w) (panel_height w) /\
    window_fixed (window w') /\
    pos w' = pos w /\ is_on_right w' = is_on_right w /\
    dict_get (match position_file w' with Object d => d | _ => [] end) "width"
      = Some (JInt (panel_width w)) /\
    dict_get (match position_file w' with Object d => d | _ => [] end) "height"
      = Some (JInt (panel_height w)).
Proof.
  unfold panel_within_limits, min_panel_width, max_panel_width,
    min_panel_height, max_panel_height.
  intros w Hr [Hw Hh]. cbv zeta.
  unfold finish_resize. rewrite Hr.
  unfold save_position, setFixedSize, size, pos.
  cbn [resizing set_resizing set_window set_position_file window position_file
       is_on_right panel_width panel_height].
  split; [reflexivity | ].
  split.
  { unfold Qt.setFixedSize, rect_size, QWIDGETSIZE_MAX.
    cbn [geometry rwidth rheight]. f_equal; lia. }
  split; [apply window_fixed_setFixedSize | ].
  repeat split.
Qed.

Lemma finish_resize_commits_witness :
  size (finish_resize resized) = mkSize (panel_width resized) (panel_height resized).
Proof.
  assert (Hr : resizing resized = true) by (vm_compute; reflexivity).
  assert (Hp : panel_within_limits resized).
  { vm_compute. repeat split; intros H; discriminate H. }
  pose proof (finish_resize_commits resized Hr Hp) as H.
  cbv zeta in H. exact (proj1 (proj2 H)).
Defined.

Lemma load_position_sampler (w : Widget) :
  network_monitor (load_position w) = network_monitor w.
Proof.
  unfold load_position, position_widget, move.
  repeat match goal with
         | |- context [match ?o with _ => _ end] => destruct o
         end; reflexivity.
Qed.

Lemma set_launch_timer_launch_timer (b : bool) (w : Widget) :
  launch_timer (set_launch_timer b w) = b.
Proof. reflexivity. Qed.

Lemma set_launch_timer_io_log (b : bool) (w : Widget) :
  io_log (set_launch_timer b w) = io_log w.
Proof. reflexivity. Qed.

Lemma show_launch_animation_fresh (os : OS) (u : Widget) :
  network_monitor u = None -> io_log u = [] ->
  is_expanded (show_launch_animation os u) = true /\
  update_timer (show_launch_animation os u) = true /\
  launch_timer (show_launch_animation os u) = true /\
  network_monitor (show_launch_animation os u) = Some (new_monitor os) /\
  io_log (show_launch_animation os u) = [true] /\
  x (show_launch_animation os u)
    = (if is_on_right (show_launch_animation os u) then screen_width u
       else - panel_width (show_launch_animation os u)).
Proof.
  intros Hm Hl.
  unfold show_launch_animation, set_expanded_state, move, setFixedSize, x.
  cbn [network_monitor set_window set_is_expanded panel_width panel_height window].
  rewrite Hm.
  cbn [is_expanded update_timer launch_timer network_monitor io_log window
       is_on_right panel_width screen_width
       set_launch_timer set_slide_animation set_window set_update_timer
       set_io_log set_network_monitor set_is_expanded
       Qt.move geometry rx].
  rewrite Hl. repeat split; try (destruct (is_on_right u); reflexivity).
Qed.

Lemma load_position_screen (u : Widget) :
  screen_width (load_position u) = screen_width u.
Proof.
  unfold load_position, position_widget, move.
  repeat match goal with
         | |- context [match ?o with _ => _ end] => destruct o
         end; reflexivity.
Qed.

(** X16. [__init__] leaves the widget expanded, with the sampler
    created by one read of the counters, the update and launch timers
    running, and the window placed beyond the screen edge from which it
    slides in; when the launch timer fires the widget is collapsed, the
    update timer stopped, and no further read has been made. *)
Theorem launch_then_collapse :
  forall (screen_w screen_h : Z) (file : FileContent) (os os' : OS),
    let w0 := init screen_w screen_h file os in
    let w1 := handle os' LaunchTimeout w0 in
    is_expanded w0 = true /\ update_timer w0 = true /\ launch_timer w0 = true /\
    network_monitor w0 = Some (new_monitor os) /\ io_log w0 = [true] /\
    x w0 = (if is_on_right w0 then screen_w else - panel_width w0) /\
    is_expanded w1 = false /\ update_timer w1 = false /\
    launch_timer w1 = false /\ io_log w1 = [true].
Proof.
  intros sw sh file os os'. cbv zeta. unfold init.
  pose proof (load_position_sampler (set_collapsed_state (blank sw sh file))) as Hm.
  destruct (load_position_tracked (set_collapsed_state (blank sw sh file)))
    as (_ & _ & _ & _ & Hl).
  pose proof (load_position_screen (set_collapsed_state (blank sw sh file))) as Hs.
  change (network_monitor (set_collapsed_state (blank sw sh file)))
    with (@None NetworkMonitor) in Hm.
  change (io_log (set_collapsed_state (blank sw sh file)))
    with (@nil bool) in Hl.
  change (screen_width (set_collapsed_state (blank sw sh file))) with sw in Hs.
  set (u := load_position (set_collapsed_state (blank sw sh file))) in *.
  clearbody u.
  destruct (show_launch_animation_fresh os u Hm Hl)
    as (E1 & E2 & E3 & E4 & E5 & E6).
  rewrite Hs in E6.
  repeat (split; [assumption | ]).
  unfold handle. rewrite E3. unfold initial_collapse.
  destruct (collapse_widget_flags
              (set_launch_timer false (show_launch_animation os u)))
    as (_ & _ & H1 & H2 & H3 & _).
  destruct (collapse_widget_timers
              (set_launch_timer false (show_launch_animation os u)))
    as (_ & _ & _ & H4).
  rewrite H1, H2, H3, H4.
  rewrite set_launch_timer_launch_timer, set_launch_timer_io_log, E5.
  repeat split.
Qed.

Lemma update_tick_samples_witness :
  exists m,
    network_monitor shown = Some m /\
    io_log (handle (mkOS 101.5 (Some (mkCounters 3145728 1048576))) UpdateTimeout shown)
      = io_log shown ++ [true].
Proof.
  assert (Hr : reachable shown).
  { unfold shown, launched. apply reachable_handle. apply reachable_init. }
  assert (He : is_expanded shown = true) by (vm_compute; reflexivity).
  destruct (update_tick_samples (mkOS 101.5 (Some (mkCounters 3145728 1048576)))
              shown Hr He) as (m & Hm & H).
  exists m. cbv zeta in H. exact (conj Hm (proj1 H)).
Defined.

(** *** Painting and fonts *)

(** X17. On a collapsed widget at least 2 wide and 18 high
    [paintEvent] draws three 2 by 2 dots, one below the other 8 pixels
    apart, all inside the widget, horizontally in the middle and
    vertically centred to within one pixel; on an expanded widget it
    draws nothing. *)
Theorem paint_dots_centred :
  forall w : Widget,
    let W := rwidth (geometry (window w)) in
    let H := rheight (geometry (window w)) in
    (is_expanded w = true -> paint_dots w = []) /\
    (is_expanded w = false -> 2 <= W -> 18 <= H ->
     exists left top,
       paint_dots w = [mkRect left top 2 2; mkRect left (top + 8) 2 2;
                       mkRect left (top + 16) 2 2] /\
       0 <= left /\ left + 2 <= W /\ 0 <= W - (left + 2) - left <= 1 /\
       0 <= top /\ top + 18 <= H /\ 0 <= H - (top + 18) - top <= 1).
Proof.
  intros w W H. subst W H. unfold paint_dots. split; intros He; rewrite He.
  - reflexivity.
  - intros HW HH. cbn [negb map].
    change (2 / 2) with 1. change (3 * 2 + 2 * 6) with 18.
    change (2 + 6) with 8.
    exists (rwidth (geometry (window w)) / 2 - 1),
           ((rheight (geometry (window w)) - 18) / 2).
    split.
    + rewrite Z.mul_0_l, Z.add_0_r, Z.mul_1_l. reflexivity.
    + repeat split; Z.to_euclidean_division_equations; lia.
Qed.

(** The docked strip, 12 by 40: dots at (5, 11), (5, 19) and (5, 27). *)
Lemma paint_dots_centred_witness :
  exists left top,
    paint_dots docked = [mkRect left top 2 2; mkRect left (top + 8) 2 2;
                         mkRect left (top + 16) 2 2] /\
    0 <= left /\ left + 2 <= rwidth (geometry (window docked)).
Proof.
  assert (He : is_expanded docked = false) by (vm_compute; reflexivity).
  assert (HW : 2 <= rwidth (geometry (window docked))).
  { vm_compute. intros H; discriminate H. }
  assert (HH : 18 <= rheight (geometry (window docked))).
  { vm_compute. intros H; discriminate H. }
  pose proof (proj2 (paint_dots_centred docked)) as H. cbv zeta in H.
  destruct (H He HW HH) as (left & top & Hd & Hl & Hr & _).
  exists left, top. exact (conj Hd (conj Hl Hr)).
Defined.

(** Checking a boolean property on every integer of a range. *)
Lemma range_forallb (P : Z -> bool) (lo : Z) (n : nat) :
  forallb P (map (fun k => lo + Z.of_nat k) (seq 0 n)) = true ->
  forall z, lo <= z < lo + Z.of_nat n -> P z = true.
Proof.
  intros Hall z Hz. rewrite forallb_forall in Hall. apply Hall.
  apply in_map_iff. exists (Z.to_nat (z - lo)). split; [lia | ].
  apply in_seq. lia.
Qed.

(** Within the limits the three font computations, made through float
    division and truncation, give the integer quotients. *)
Lemma font_divisions_exact (pw : Z) :
  min_panel_width <= pw <= max_panel_width ->
  Py.int_truediv (pw - 50) 18 = Some ((pw - 50) / 18) /\
  Py.int_truediv pw 25 = Some (pw / 25) /\
  Py.int_truediv pw 18 = Some (pw / 18).
Proof.
  intros H.
  pose (exact_at := fun (a b : Z) =>
          match Py.int_truediv a b with
          | Some q => q =? a / b
          | None => false
          end).
  assert (E : exact_at (pw - 50) 18 && exact_at pw 25 && exact_at pw 18 = true).
  { apply (range_forallb
             (fun z => exact_at (z - 50) 18 && exact_at z 25 && exact_at z 18)
             220 281).
    - vm_compute. reflexivity.
    - unfold min_panel_width, max_panel_width in H. lia. }
  apply andb_prop in E. destruct E as [E Ec].
  apply andb_prop in E. destruct E as [Ea Eb].
  unfold exact_at in Ea, Eb, Ec.
  destruct (Py.int_truediv (pw - 50) 18) as [a | ]; [ | discriminate].
  destruct (Py.int_truediv pw 25) as [b | ]; [ | discriminate].
  destruct (Py.int_truediv pw 18) as [c | ]; [ | discriminate].
  apply Z.eqb_eq in Ea, Eb, Ec. subst a b c. repeat split.
Qed.

(** X18. For every panel width within the limits the font sizes
    computed through float division and truncation are those of integer
    division: the title is min(14, (width - 50) // 18) points, between 9
    and 14; the labels min(12, width // 25), between 8 and 12; the speeds
    min(18, width // 18), between 12 and 18. The lower clamps 8, 7 and 10
    never apply and no computation raises. *)
Theorem font_sizes_within_limits :
  forall w : Widget,
    panel_within_limits w ->
    exists title label speed,
      title_point_size w = Some title /\
      label_point_sizes w = Some (label, speed) /\
      title = Z.min 14 ((panel_width w - 50) / 18) /\ 9 <= title <= 14 /\
      label = Z.min 12 (panel_width w / 25) /\ 8 <= label <= 12 /\
      speed = Z.min 18 (panel_width w / 18) /\ 12 <= speed <= 18.
Proof.
  intros w [Hw _].
  destruct (font_divisions_exact (panel_width w) Hw) as (Ea & Eb & Ec).
  unfold title_point_size, label_point_sizes. rewrite Ea, Eb, Ec.
  unfold min_panel_width, max_panel_width in Hw.
  eexists _, _, _. split; [reflexivity | ]. split; [reflexivity | ].
  repeat split; Z.to_euclidean_division_equations; lia.
Qed.

Lemma font_sizes_within_limits_witness :
  exists title label speed,
    title_point_size resized = Some title /\
    label_point_sizes resized = Some (label, speed) /\
    title = Z.min 14 ((panel_width resized - 50) / 18).
Proof.
  assert (Hp : panel_within_limits resized).
  { vm_compute. repeat split; intros H; discriminate H. }
  destruct (font_sizes_within_limits resized Hp)
    as (title & label & speed & Ht & Hl & Et & _).
  exists title, label, speed. exact (conj Ht (conj Hl Et)).
Defined.

(** *** Hovering and dragging *)

(** X19. With hover expansion enabled and no gesture in progress,
    entering a collapsed widget expands it and starts the sampling;
    leaving it arms the hover-delay timer; when that timer fires the
    widget collapses; entering again before it fires disarms it and the
    widget stays expanded. *)
Theorem hover_cycle :
  forall (os : OS) (w : Widget),
    hover_expand_enabled w = true -> is_expanded w = false ->
    dragging w = false -> resizing w = false ->
    let entered := handle os Enter w in
    let left := handle os Leave entered in
    let timed_out := handle os HoverDelayTimeout left in
    let back := handle os Enter left in
    (is_expanded entered = true /\ update_timer entered = true /\
     hover_delay_timer entered = false) /\
    (is_expanded left = true /\ hover_delay_timer left = true) /\
    (is_expanded timed_out = false /\ update_timer timed_out = false /\
     hover_delay_timer timed_out = false) /\
    (is_expanded back = true /\ hover_delay_timer back = false).
Proof.
  intros os w Hh He Hd Hr. cbv zeta.
  unfold handle, enterEvent, leaveEvent, expand_widget, collapse_widget,
    set_expanded_state, set_collapsed_state, animate_to_edge,
    stop_auto_collapse_timer, setFixedSize.
  destruct w; simpl in *. subst. simpl.
  destruct network_monitor0; simpl; repeat split.
Qed.

Lemma hover_cycle_witness :
  is_expanded (handle os0 Enter docked) = true /\
  is_expanded (handle os0 HoverDelayTimeout
                 (handle os0 Leave (handle os0 Enter docked))) = false.
Proof.
  assert (Hh : hover_expand_enabled docked = true) by (vm_compute; reflexivity).
  assert (He : is_expanded docked = false) by (vm_compute; reflexivity).
  assert (Hd : dragging docked = false) by (vm_compute; reflexivity).
  assert (Hr : resizing docked = false) by (vm_compute; reflexivity).
  pose proof (hover_cycle os0 docked Hh He Hd Hr) as H. cbv zeta in H.
  exact (conj (proj1 (proj1 H)) (proj1 (proj1 (proj2 (proj2 H))))).
Defined.

Lemma last_any_default {A : Type} (l : list A) (d d' : A) :
  l <> [] -> last l d = last l d'.
Proof.
  induction l as [ | a l IH]; intros H; [congruence | ].
  destruct l as [ | b l]; [reflexivity | ].
  change (last (b :: l) d = last (b :: l) d'). apply IH. discriminate.
Qed.

Lemma mouseMoveEvent_drag (p g : QPoint) (w : Widget) :
  resizing w = false ->
  let w' := mouseMoveEvent left_held p g w in
  drag_start_position w' = drag_start_position w /\
  size w' = size w /\
  (dragging w' = true -> pos w' = point_sub g (drag_start_position w)) /\
  (dragging w' = false -> pos w' = pos w).
Proof.
  intros Hr. cbv zeta. unfold mouseMoveEvent. simpl. rewrite Hr. simpl.
  unfold stop_auto_collapse_timer, move, Qt.move, size, pos, topLeft, rect_size,
    point_sub.
  destruct (dragging w) eqn:Hd; simpl.
  - rewrite Hd. simpl. repeat split; congruence.
  - destruct (drag_threshold <? _); simpl; [ | rewrite Hd; simpl];
      repeat split; congruence.
Qed.

Lemma held_moves_drag (moves : list (QPoint * QPoint)) :
  forall w, resizing w = false ->
    let w' := held_moves moves w in
    size w' = size w /\
    (dragging w' = false -> pos w' = pos w) /\
    (dragging w' = true -> moves <> [] ->
     pos w' = point_sub (snd (last moves (pos w, pos w))) (drag_start_position w)).
Proof.
  induction moves as [ | [p g] rest IH]; intros w Hr; cbv zeta.
  - simpl. repeat split. intros _ H. exfalso. apply H. reflexivity.
  - destruct (mouseMoveEvent_idle p g w Hr) as (Hr1 & Hd1 & _).
    destruct (mouseMoveEvent_drag p g w Hr) as (Hs1 & Hz1 & Hp1 & Hq1).
    specialize (IH _ Hr1). cbv zeta in IH. destruct IH as (IHs & IHf & IHt).
    cbn [held_moves]. split; [congruence | ]. split.
    + intros Hf. rewrite (IHf Hf).
      destruct (held_moves_idle rest _ Hr1) as (_ & Hdn & _).
      rewrite Hf in Hdn. symmetry in Hdn. apply orb_false_iff in Hdn.
      apply Hq1. apply Hdn.
    + intros Ht _. destruct rest as [ | m rest'].
      * simpl in *. apply Hp1. exact Ht.
      * rewrite (IHt Ht) by discriminate. rewrite Hs1.
        f_equal. f_equal.
        change (last ((p, g) :: m :: rest') (pos w, pos w))
          with (last (m :: rest') (pos w, pos w)).
        apply last_any_default. discriminate.
Qed.

Lemma mousePressEvent_geometry (p g : QPoint) (w : Widget) :
  let w' := mousePressEvent LeftButton p g w in
  window w' = window w /\
  drag_start_position w' = point_sub g (pos w).
Proof.
  cbv zeta. unfold mousePressEvent, pos. simpl.
  destruct (is_expanded w) eqn:He; [ | split; reflexivity].
  destruct (get_resize_cursor_zone p _).
  - unfold start_resize, stop_auto_collapse_timer. split; reflexivity.
  - unfold reset_auto_collapse_timer. simpl. rewrite He. split; reflexivity.
Qed.

(** X20. In a gesture that starts outside the resize zones the
    widget keeps its size; as long as no drag has begun it stays where it
    is, and once a drag has begun its displacement is the displacement of
    the pointer from the press position to the last move, whatever the
    path in between. *)
Theorem drag_follows_pointer :
  forall (w0 : Widget) (p g : QPoint) (moves : list (QPoint * QPoint)),
    in_resize_zone p w0 = false ->
    let wn := held_moves moves (mousePressEvent LeftButton p g w0) in
    let last_pointer := snd (last moves (p, g)) in
    size wn = size w0 /\
    (dragging wn = false -> pos wn = pos w0) /\
    (dragging wn = true ->
     px (pos wn) = px (pos w0) + (px last_pointer - px g) /\
     py (pos wn) = py (pos w0) + (py last_pointer - py g)).
Proof.
  intros w0 p g moves Hz. cbv zeta.
  destruct (mousePressEvent_left p g w0) as (Hd & Hr & _).
  rewrite Hz in Hr.
  destruct (mousePressEvent_geometry p g w0) as (Hwin & Hds).
  destruct (held_moves_drag moves _ Hr) as (Hs & Hf & Ht).
  unfold size, pos in *. rewrite Hwin in *.
  split; [exact Hs | ]. split; [exact Hf | ].
  intros Hdn.
  assert (Hne : moves <> []).
  { intros ->. cbn [held_moves] in Hdn. congruence. }
  rewrite (Ht Hdn Hne), Hds.
  rewrite (last_any_default moves _ (p, g) Hne).
  unfold point_sub, topLeft. simpl. split; lia.
Qed.

(** The panel grabbed at (1730, 600) and taken to (50, 40) has moved by
    (-1680, -560). *)
Lemma drag_follows_pointer_witness :
  px (pos (held_moves [(mkPoint (-1580) (-480), mkPoint 50 40)]
             (mousePressEvent LeftButton (mkPoint 100 80) (mkPoint 1730 600) shown)))
  = px (pos shown)
    + (px (snd (last [(mkPoint (-1580) (-480), mkPoint 50 40)]
                     (mkPoint 100 80, mkPoint 1730 600)))
       - px (mkPoint 1730 600)).
Proof.
  assert (Hz : in_resize_zone (mkPoint 100 80) shown = false)
    by (vm_compute; reflexivity).
  pose proof (drag_follows_pointer shown (mkPoint 100 80) (mkPoint 1730 600)
                [(mkPoint (-1580) (-480), mkPoint 50 40)] Hz) as H.
  cbv zeta in H. destruct H as (_ & _ & H).
  apply H. vm_compute. reflexivity.
Defined.

End ControllerFacts.
